(** * dadDashboard: wake-on-LAN, reachability probing and the wake-and-wait
      handler of [server.py], embedded in Rocq.

    The Python code is effectful: it spawns [ping], issues HTTP requests,
    opens a broadcast socket, sleeps and prints.  The embedding keeps the
    pure string and byte computations as executable functions and threads
    every external call through a small monad that records the call, asks
    an environment for its answer, and propagates Python exceptions. *)

From Stdlib Require Import Strings.String Strings.Ascii Strings.Byte List ZArith NArith Bool Lia.
Import ListNotations.

Local Open Scope string_scope.
Local Open Scope list_scope.

(** ** Python built-ins used by [server.py] *)

(** A [str] is a Rocq [string], a sequence of 8-bit characters; [bytes] is
    a [list byte].  The hardware addresses, targets and URLs of
    [server.py] are ASCII. *)

Module Py.

(** [s.replace(old, new)] for a one-character [old]. *)
Fixpoint str_replace (old : ascii) (new : string) (s : string) : string :=
  match s with
  | EmptyString => EmptyString
  | String c r =>
      if Ascii.eqb c old
      then new ++ str_replace old new r
      else String c (str_replace old new r)
  end.

(** [s * n] on strings. *)
Fixpoint str_mul (s : string) (n : nat) : string :=
  match n with
  | O => EmptyString
  | S k => s ++ str_mul s k
  end.

(** Value of a hexadecimal digit, [None] for every other character
    (the table lookup [_PyLong_DigitValue[c] < 16] of CPython). *)
Definition hex_digit_value (c : ascii) : option N :=
  let n := N_of_ascii c in
  if (48 <=? n)%N && (n <=? 57)%N then Some (n - 48)%N
  else if (65 <=? n)%N && (n <=? 70)%N then Some (n - 55)%N
  else if (97 <=? n)%N && (n <=? 102)%N then Some (n - 87)%N
  else None.

Definition is_hex_digit (c : ascii) : bool :=
  match hex_digit_value c with Some _ => true | None => false end.

(** ASCII whitespace as [bytes.fromhex] skips it: tab, newline, vertical
    tab, form feed, carriage return and space. *)
Definition is_space (c : ascii) : bool :=
  let n := N_of_ascii c in
  ((9 <=? n)%N && (n <=? 13)%N) || (n =? 32)%N.

Definition byte_of_nibbles (hi lo : N) : byte :=
  byte_of_ascii (ascii_of_N (16 * hi + lo)).

(** The scanning loop of [bytes.fromhex].  [pending] is the high digit
    of a byte whose low digit is still to be read: whitespace is skipped
    only between bytes, the two digits of a byte are adjacent, and the
    input must not end inside a byte.  [None] stands for the
    [ValueError] the built-in raises. *)
Fixpoint fromhex_from (pending : option N) (s : string)
  : option (list byte) :=
  match s, pending with
  | EmptyString, None => Some []
  | EmptyString, Some _ => None
  | String c r, None =>
      if is_space c then fromhex_from None r
      else match hex_digit_value c with
           | Some hi => fromhex_from (Some hi) r
           | None => None
           end
  | String c r, Some hi =>
      match hex_digit_value c with
      | Some lo =>
          match fromhex_from None r with
          | Some bs => Some (byte_of_nibbles hi lo :: bs)
          | None => None
          end
      | None => None
      end
  end.

Definition bytes_fromhex (s : string) : option (list byte) :=
  fromhex_from None s.

(** Letter case on the ASCII range, where hexadecimal digits live. *)
Definition ascii_lower (c : ascii) : ascii :=
  let n := N_of_ascii c in
  if (65 <=? n)%N && (n <=? 90)%N then ascii_of_N (n + 32) else c.

Definition ascii_upper (c : ascii) : ascii :=
  let n := N_of_ascii c in
  if (97 <=? n)%N && (n <=? 122)%N then ascii_of_N (n - 32) else c.

Fixpoint str_map (f : ascii -> ascii) (s : string) : string :=
  match s with
  | EmptyString => EmptyString
  | String c r => String (f c) (str_map f r)
  end.

Definition str_lower : string -> string := str_map ascii_lower.
Definition str_upper : string -> string := str_map ascii_upper.

Fixpoint str_forallb (p : ascii -> bool) (s : string) : bool :=
  match s with
  | EmptyString => true
  | String c r => p c && str_forallb p r
  end.

Fixpoint str_existsb (p : ascii -> bool) (s : string) : bool :=
  match s with
  | EmptyString => false
  | String c r => p c || str_existsb p r
  end.

End Py.

(** ** Exceptions, external calls, environments *)

(** The exception classes that matter to [server.py].  [RequestException]
    stands for [requests.RequestException] and all its subclasses
    (ConnectionError, Timeout, InvalidURL, ...), named by [cls];
    [OSError] for what spawning a process or using a socket raises
    outside of [requests]. *)
Inductive exn : Type :=
| ValueError (msg : string)
| OSError (msg : string)
| RequestException (cls : string)
| OtherException (cls : string).

Definition isinstance_RequestException (x : exn) : bool :=
  match x with
  | RequestException _ => true
  | _ => false
  end.

Inductive result (A : Type) : Type :=
| Ok (a : A)
| Err (x : exn).
Arguments Ok {A} a.
Arguments Err {A} x.

(** What [ipaddress.ip_address] returns; the object itself is discarded
    by the caller. *)
Inductive ip_version : Type := IPv4 | IPv6.

(** The only component of [urlparse]'s result that is read. *)
Record ParseResult : Type := { scheme : string }.

(** Calls that leave the process. *)
Inductive call : Type :=
| Socket_socket                       (* socket.socket(AF_INET, SOCK_DGRAM) *)
| Setsockopt_broadcast                (* setsockopt(SOL_SOCKET, SO_BROADCAST, 1) *)
| Sendto (data : list byte) (host : string) (port : Z)
| Socket_close                        (* leaving the with block *)
| Subprocess_call (argv : list string)
| Requests_get (url : string) (timeout : Z)
| Time_sleep (secs : Z)
| Stdout_print (msg : string).

Inductive event : Type :=
| Ev (c : call) (a : result Z).

Definition trace : Type := list event.

(** An environment fixes the two pure library parsers and answers every
    external call, possibly depending on everything that happened before
    (so that a host may be down for two probes and up for the third).
    [ip_address] is [None] where the library raises [ValueError], its
    only exception on a string. *)
Record environment : Type := {
  ip_address : string -> option ip_version;
  urlparse : string -> result ParseResult;
  respond : trace -> call -> result Z
}.

(** ** The monad of handlers *)

(** [Pending]: the polling loop has not finished within the iterations
    allotted to it. *)
Inductive outcome (A : Type) : Type :=
| Return (a : A)
| Raise (x : exn)
| Pending.
Arguments Return {A} a.
Arguments Raise {A} x.
Arguments Pending {A}.

(** A computation reads the environment and the history so far and gives
    its outcome together with the events it added, oldest first. *)
Definition M (A : Type) : Type := environment -> trace -> outcome A * trace.

Definition ret {A} (a : A) : M A := fun _ _ => (Return a, []).

Definition raise {A} (x : exn) : M A := fun _ _ => (Raise x, []).

Definition bind {A B} (m : M A) (k : A -> M B) : M B :=
  fun e h =>
    match m e h with
    | (Return a, t1) =>
        let (o, t2) := k a e (h ++ t1) in (o, t1 ++ t2)
    | (Raise x, t1) => (Raise x, t1)
    | (Pending, t1) => (Pending, t1)
    end.

Declare Scope py_scope.
Delimit Scope py_scope with py.
Notation "x <- m ;; k" := (bind m (fun x => k))
  (at level 61, m at next level, right associativity) : py_scope.
Notation "m ;; k" := (bind m (fun _ => k))
  (at level 61, right associativity) : py_scope.
Local Open Scope py_scope.

(** An external call that may raise. *)
Definition perform (c : call) : M Z :=
  fun e h =>
    match respond e h c with
    | Ok v => (Return v, [Ev c (Ok v)])
    | Err x => (Raise x, [Ev c (Err x)])
    end.

(** An external call taken not to fail (closing a socket, sleeping,
    printing). *)
Definition emit (c : call) : M unit :=
  fun _ _ => (Return tt, [Ev c (Ok 0%Z)]).

Definition lift {A} (r : result A) : M A :=
  match r with
  | Ok a => ret a
  | Err x => raise x
  end.

(** [try: m  except <class>: handler]. *)
Definition try_except {A} (m : M A) (cls : exn -> bool) (handler : M A) : M A :=
  fun e h =>
    match m e h with
    | (Raise x, t1) =>
        if cls x
        then let (o, t2) := handler e (h ++ t1) in (o, t1 ++ t2)
        else (Raise x, t1)
    | r => r
    end.

(** [try: m  finally: cleanup], as the with statement uses it. *)
Definition try_finally {A} (m : M A) (cleanup : M unit) : M A :=
  fun e h =>
    let (o, t1) := m e h in
    match cleanup e (h ++ t1) with
    | (Return _, t2) => (o, t1 ++ t2)
    | (Raise x, t2) => (Raise x, t1 ++ t2)
    | (Pending, t2) => (Pending, t1 ++ t2)
    end.

(** [while cond: body], run for at most [fuel] evaluations of [cond]. *)
Fixpoint while (fuel : nat) (cond : M bool) (body : M unit) : M unit :=
  match fuel with
  | O => fun _ _ => (Pending, [])
  | S n =>
      b <- cond ;;
      if b then body ;; while n cond body else ret tt
  end.

(** ** server.py *)

(** Module-level names read by the handlers at call time. *)
Record globals : Type := { AI_SERVER_MAC : string }.

Definition server_globals : globals :=
  {| AI_SERVER_MAC := "D8:CB:8A:40:15:E5" |}.

Inductive json : Type :=
| JBool (b : bool)
| JStr (s : string).

(** [jsonify(body), status] *)
Record response : Type := {
  body : list (string * json);
  status : Z
}.

(** First statement of [wake_on_lan]: remove any separators. *)
Definition normalize_mac (mac_address : string) : string :=
  Py.str_replace "-" "" (Py.str_replace ":" "" mac_address).

(** The magic packet of an already normalized address:
    [bytes.fromhex('FF' * 6 + mac_address * 16)]. *)
Definition magic_packet (mac_address : string) : option (list byte) :=
  Py.bytes_fromhex (Py.str_mul "FF" 6 ++ Py.str_mul mac_address 16).

Definition fromhex_error : exn :=
  ValueError "non-hexadecimal number found in fromhex() arg".

Definition wake_on_lan (mac_address : string) : M unit :=
  let mac_address := normalize_mac mac_address in
  if negb (String.length mac_address =? 12)%nat
  then raise (ValueError "MAC address should be 12 hexadecimal digits")
  else
    data <- match magic_packet mac_address with
            | Some d => ret d
            | None => raise fromhex_error
            end ;;
    (perform Socket_socket ;;
     try_finally
       (perform Setsockopt_broadcast ;;
        perform (Sendto data "<broadcast>" 9))
       (emit Socket_close)) ;;
    emit (Stdout_print ("Magic packet sent to " ++ mac_address)%string).

Definition _is_ip_address (value : string) : M bool :=
  fun e _ =>
    match ip_address e value with
    | Some _ => (Return true, [])
    | None => (Return false, [])
    end.

Definition ping_command (target : string) : list string :=
  ["ping"; "-c"; "1"; "-W"; "1"; target].

Definition is_online (target : string) : M bool :=
  is_ip <- _is_ip_address target ;;
  if is_ip then
    rc <- perform (Subprocess_call (ping_command target)) ;;
    ret (rc =? 0)%Z
  else
    parsed <- (fun e => lift (urlparse e target) e) ;;
    let url := if (scheme parsed =? "")%string
               then ("http://" ++ target)%string
               else target in
    try_except
      (resp <- perform (Requests_get url 1) ;;
       ret (resp =? 200)%Z)
      isinstance_RequestException
      (ret false).

Definition T1 : string := "192.168.23.22".
Definition T2 : string := "openwebui.illerit.de".

Definition waiting_for_server : M unit :=
  emit (Time_sleep 1) ;;
  emit (Stdout_print "Waiting for AI server to come online...").

Definition waiting_for_web_ui : M unit :=
  emit (Time_sleep 1) ;;
  emit (Stdout_print "Waiting for AI Web UI to come online...").

Definition not_online (target : string) : M bool :=
  b <- is_online target ;; ret (negb b).

Definition ok_logged : response :=
  {| body := [("status", JStr "ok"); ("logged", JBool true)]; status := 200 |}.

(** POST /get-webui *)
Definition api_log_redirect (g : globals) (fuel : nat) : M response :=
  wake_on_lan (AI_SERVER_MAC g) ;;
  while fuel (not_online T1) waiting_for_server ;;
  while fuel (not_online T2) waiting_for_web_ui ;;
  ret ok_logged.

(** POST /start-ki-server *)
Definition api_start_ki_server (g : globals) : M response :=
  wake_on_lan (AI_SERVER_MAC g) ;;
  ret ok_logged.

(** GET /status/<ip> *)
Definition api_web_ui_status (ip : string) : M response :=
  online <- is_online ip ;;
  ret {| body := [("online", JBool online)]; status := 200 |}.

(** ** Observations on traces *)

Definition is_probe (ev : event) : bool :=
  match ev with
  | Ev (Subprocess_call _) _ => true
  | Ev (Requests_get _ _) _ => true
  | _ => false
  end.

Definition is_echo_probe (ev : event) : bool :=
  match ev with
  | Ev (Subprocess_call _) _ => true
  | _ => false
  end.

Definition is_http_probe (ev : event) : bool :=
  match ev with
  | Ev (Requests_get _ _) _ => true
  | _ => false
  end.

(** The URL a Named target is fetched at. *)
Definition probe_url (p : ParseResult) (target : string) : string :=
  if (scheme p =? "")%string then ("http://" ++ target)%string else target.

(** The event is a probe of [target]: the ping of it, or a GET of it with
    or without the default scheme. *)
Definition probes_target (target : string) (ev : event) : bool :=
  match ev with
  | Ev (Subprocess_call argv) _ =>
      if list_eq_dec string_dec argv (ping_command target) then true else false
  | Ev (Requests_get url _) _ =>
      (url =? target)%string || (url =? "http://" ++ target)%string
  | _ => false
  end.

(** The probe reported the target reachable: exit status 0, or HTTP 200. *)
Definition probe_succeeded (ev : event) : bool :=
  match ev with
  | Ev (Subprocess_call _) (Ok rc) => (rc =? 0)%Z
  | Ev (Requests_get _ _) (Ok st) => (st =? 200)%Z
  | _ => false
  end.

(** What a call of the prober leaves in the trace: nothing when the URL
    parser raised, otherwise exactly one probe of the target, which tells
    the result. *)
Inductive probed (target : string) : outcome bool -> trace -> Prop :=
| probed_result (ev : event) :
    is_probe ev = true ->
    probes_target target ev = true ->
    probed target (Return (probe_succeeded ev)) [ev]
| probed_raised (ev : event) (x : exn) :
    is_probe ev = true ->
    probes_target target ev = true ->
    probe_succeeded ev = false ->
    probed target (Raise x) [ev]
| probed_unparsed (x : exn) :
    probed target (Raise x) [].

Definition is_send (ev : event) : bool :=
  match ev with
  | Ev (Sendto _ _ _) _ => true
  | _ => false
  end.

Definition is_delay (ev : event) : bool :=
  match ev with
  | Ev (Time_sleep _) _ => true
  | _ => false
  end.

Definition is_socket_open (ev : event) : bool :=
  match ev with
  | Ev Socket_socket _ => true
  | _ => false
  end.

Definition count (p : event -> bool) (t : trace) : nat :=
  List.length (filter p t).

(** Events of a polling phase for [target]: its probes are probes of
    [target], and nothing is sent. *)
Definition polls_only (target : string) (ev : event) : Prop :=
  (is_probe ev = true -> probes_target target ev = true)
  /\ is_send ev = false.

(** A normalized hardware address is valid when it is 12 hexadecimal
    characters. *)
Definition valid_normalized (m : string) : Prop :=
  String.length m = 12%nat /\ Py.str_forallb Py.is_hex_digit m = true.

(** ** Example environments *)

Definition is_digit (c : ascii) : bool :=
  let n := N_of_ascii c in (48 <=? n)%N && (n <=? 57)%N.

Definition is_alpha (c : ascii) : bool :=
  let n := N_of_ascii c in
  ((65 <=? n)%N && (n <=? 90)%N) || ((97 <=? n)%N && (n <=? 122)%N).

Fixpoint split_on (sep : ascii) (s : string) : list string :=
  match s with
  | EmptyString => [EmptyString]
  | String c r =>
      if Ascii.eqb c sep then EmptyString :: split_on sep r
      else match split_on sep r with
           | [] => [String c EmptyString]
           | x :: xs => String c x :: xs
           end
  end.

Fixpoint decimal_value (acc : N) (s : string) : N :=
  match s with
  | EmptyString => acc
  | String c r => decimal_value (10 * acc + (N_of_ascii c - 48))%N r
  end.

Definition ipv4_octet (s : string) : bool :=
  match s with
  | EmptyString => false
  | String c r =>
      Py.str_forallb is_digit s
      && (String.length s <=? 3)%nat
      && (decimal_value 0 s <=? 255)%N
      && (negb (Ascii.eqb c "0") || (String.length s =? 1)%nat)
  end.

(** A recognizer of dotted-quad IPv4 literals, enough for the addresses of
    the examples; it knows no IPv6. *)
Definition dotted_quad (value : string) : option ip_version :=
  match split_on "." value with
  | [a; b; c; d] =>
      if ipv4_octet a && ipv4_octet b && ipv4_octet c && ipv4_octet d
      then Some IPv4 else None
  | _ => None
  end.

Definition is_scheme_char (c : ascii) : bool :=
  is_alpha c || is_digit c
  || Ascii.eqb c "+" || Ascii.eqb c "-" || Ascii.eqb c ".".

(** [s] cut at the first character satisfying [p]: what precedes it, and
    what follows it when there is one. *)
Fixpoint cut_at (p : ascii -> bool) (s : string) : string * option string :=
  match s with
  | EmptyString => (EmptyString, None)
  | String c r =>
      if p c then (EmptyString, Some r)
      else let (pre, post) := cut_at p r in (String c pre, post)
  end.

(** Scheme splitting after [urllib.parse.urlsplit]: a leading run of scheme
    characters that starts with a letter and ends at the first colon is the
    scheme; a network location with an unbalanced square bracket raises
    [ValueError]. *)
Definition split_url (url : string) : result ParseResult :=
  let (sch, rest) :=
    match cut_at (Ascii.eqb ":") url with
    | (String c pre, Some post) =>
        if is_alpha c && Py.str_forallb is_scheme_char pre
        then (Py.str_lower (String c pre), post)
        else (EmptyString, url)
    | _ => (EmptyString, url)
    end in
  match rest with
  | String "/" (String "/" after) =>
      let netloc :=
        fst (cut_at (fun c => Ascii.eqb c "/" || Ascii.eqb c "?" || Ascii.eqb c "#")
                    after) in
      let has_open := Py.str_existsb (Ascii.eqb "[") netloc in
      let has_close := Py.str_existsb (Ascii.eqb "]") netloc in
      if xorb has_open has_close
      then Err (ValueError "Invalid IPv6 URL")
      else Ok {| scheme := sch |}
  | _ => Ok {| scheme := sch |}
  end.

(** An environment that plays a script: the n-th spawned process and the
    n-th GET get the n-th scripted answer, sockets always work. *)
Definition scripted (spawns gets : list (result Z)) : environment :=
  {| ip_address := dotted_quad;
     urlparse := split_url;
     respond := fun h c =>
       match c with
       | Subprocess_call _ =>
           nth (count is_echo_probe h) spawns (Ok 1%Z)
       | Requests_get _ _ =>
           nth (count is_http_probe h) gets (Err (RequestException "ConnectionError"))
       | Sendto data _ _ => Ok (Z.of_nat (List.length data))
       | _ => Ok 0%Z
       end |}.

(** No [ping] executable on the host: spawning it raises. *)
Definition no_ping : environment :=
  scripted [Err (OSError "[Errno 2] No such file or directory: 'ping'")] [].


(** ** Python values, for JSON bodies and the YAML configuration *)

(** The values [request.get_json] and [yaml.safe_load] give, without
    floats and dates; containers are trees (no YAML aliases), and a [dict]
    keeps its items in insertion order. *)
#[warnings="-register-all"] Inductive pyval : Type :=
| PNone
| PBool (b : bool)
| PInt (z : Z)
| PStr (s : string)
| PList (l : list pyval)
| PDict (d : list (pyval * pyval)).

Definition pydict : Type := list (pyval * pyval).

Definition TypeError : exn := OtherException "TypeError".
Definition AttributeError : exn := OtherException "AttributeError".
Definition KeyError : exn := OtherException "KeyError".

(** [bool(v)] *)
Definition py_bool (v : pyval) : bool :=
  match v with
  | PNone => false
  | PBool b => b
  | PInt z => negb (z =? 0)%Z
  | PStr s => negb (s =? "")%string
  | PList l => match l with [] => false | _ => true end
  | PDict d => match d with [] => false | _ => true end
  end.

(** [a == b] on the values that can be keys: strings by content, integers
    and booleans as numbers (True == 1), None with itself. *)
Definition py_key_eqb (a b : pyval) : bool :=
  match a, b with
  | PStr s, PStr t => (s =? t)%string
  | PInt x, PInt y => (x =? y)%Z
  | PInt x, PBool c => (x =? (if c then 1 else 0))%Z
  | PBool c, PInt y => ((if c then 1 else 0) =? y)%Z
  | PBool c, PBool d => Bool.eqb c d
  | PNone, PNone => true
  | _, _ => false
  end.

(** [v == s] for a string literal [s]. *)
Definition py_eq_str (v : pyval) (s : string) : bool :=
  py_key_eqb v (PStr s).

Fixpoint dict_getitem (d : pydict) (k : pyval) : option pyval :=
  match d with
  | [] => None
  | (k', v) :: r => if py_key_eqb k' k then Some v else dict_getitem r k
  end.

(** [d[k] = v]: the item keeps its place (and its key) when the key is
    there, and is added at the end otherwise. *)
Fixpoint dict_setitem (d : pydict) (k v : pyval) : pydict :=
  match d with
  | [] => [(k, v)]
  | (k', v') :: r =>
      if py_key_eqb k' k then (k', v) :: r
      else (k', v') :: dict_setitem r k v
  end.

(** [d.get(k, default)] *)
Definition dict_get (d : pydict) (k : string) (default : pyval) : pyval :=
  match dict_getitem d (PStr k) with
  | Some v => v
  | None => default
  end.

Definition dict_contains (d : pydict) (k : string) : bool :=
  match dict_getitem d (PStr k) with
  | Some _ => true
  | None => false
  end.

(** [sub in s] on strings. *)
Fixpoint str_contains (sub s : string) : bool :=
  String.prefix sub s
  || match s with
     | EmptyString => false
     | String _ r => str_contains sub r
     end.

(** [k in x] for a string [k]. *)
Definition py_contains (k : string) (x : pyval) : result bool :=
  match x with
  | PDict d => Ok (dict_contains d k)
  | PList l => Ok (existsb (fun v => py_eq_str v k) l)
  | PStr s => Ok (str_contains k s)
  | _ => Err TypeError
  end.

(** [x[k]] for a string [k]. *)
Definition py_getitem (x : pyval) (k : string) : result pyval :=
  match x with
  | PDict d =>
      match dict_getitem d (PStr k) with
      | Some v => Ok v
      | None => Err KeyError
      end
  | _ => Err TypeError
  end.

(** [x.get(k, default)] *)
Definition py_get (x : pyval) (k : string) (default : pyval) : result pyval :=
  match x with
  | PDict d => Ok (dict_get d k default)
  | _ => Err AttributeError
  end.

(** [x[k] = v] for a string [k]; the updated container. *)
Definition py_setitem (x : pyval) (k : string) (v : pyval) : result pyval :=
  match x with
  | PDict d => Ok (PDict (dict_setitem d (PStr k) v))
  | _ => Err TypeError
  end.

Definition chars (s : string) : list pyval :=
  map (fun c => PStr (String c EmptyString)) (list_ascii_of_string s).

(** The items [for v in x] goes through. *)
Definition py_iter (x : pyval) : result (list pyval) :=
  match x with
  | PList l => Ok l
  | PDict d => Ok (map fst d)
  | PStr s => Ok (chars s)
  | _ => Err TypeError
  end.

Definition hashable (k : pyval) : bool :=
  match k with
  | PList _ | PDict _ => false
  | _ => true
  end.

(** One element of the sequence handed to [dict(...)], as a key and a
    value. *)
Definition dict_item (x : pyval) : result (pyval * pyval) :=
  match py_iter x with
  | Err _ => Err TypeError
  | Ok [k; v] => if hashable k then Ok (k, v) else Err TypeError
  | Ok _ => Err (ValueError "dictionary update sequence element has the wrong length")
  end.

Fixpoint dict_of_items (acc : pydict) (items : list pyval) : result pydict :=
  match items with
  | [] => Ok acc
  | x :: r =>
      match dict_item x with
      | Ok (k, v) => dict_of_items (dict_setitem acc k v) r
      | Err e => Err e
      end
  end.

(** [dict(x)] *)
Definition py_dict (x : pyval) : result pydict :=
  match x with
  | PDict d => Ok d
  | _ =>
      match py_iter x with
      | Ok items => dict_of_items [] items
      | Err e => Err e
      end
  end.

(** ** Configuration file and runtime state *)

(** What [load_config] finds at [CONFIG_PATH]: no file, a file that cannot
    be opened or parsed, or a file with its parsed content.  A value
    written by [yaml.safe_dump] is taken to load back as itself. *)
Inductive file_state : Type :=
| Missing
| Unreadable (x : exn)
| Parsed (v : pyval).

(** The process: the module-level dict [runtime_state] and the file. *)
Record server : Type := {
  runtime_state : pydict;
  config_file : file_state
}.

(** [runtime_state] as the module creates it. *)
Definition initial_runtime_state : pydict :=
  [(PStr "maintenance", PBool false)].

Definition default_config : pyval :=
  PDict [(PStr "system", PDict []); (PStr "buttons", PList [])].

Definition load_config (f : file_state) : result pyval :=
  match f with
  | Missing => Ok default_config
  | Unreadable x => Err x
  | Parsed v => Ok (if py_bool v then v else default_config)
  end.

(** What writing the file does: it succeeds, or raises and leaves the file
    in some state.  [msg] is [str(e)] of the exception. *)
Inductive write_outcome : Type :=
| Written
| WriteFailed (x : exn) (msg : string) (after : file_state).

(** [save_config(config_data)]; the lock it takes plays no part in a
    single request. *)
Definition save_config (w : pyval -> write_outcome) (config_data : pyval)
  : result unit * file_state :=
  match w config_data with
  | Written => (Ok tt, Parsed config_data)
  | WriteFailed x _ after => (Err x, after)
  end.

(** ** POST /maint *)

(** [request.is_json] and what [request.get_json()] does. *)
Record request : Type := {
  is_json : bool;
  get_json : result pyval
}.

(** The request body as [api_maint] reads it. *)
Definition maint_body (req : request) : pyval :=
  if is_json req then
    match get_json req with
    | Ok b => b
    | Err _ => PDict []
    end
  else PDict [].

(** The new flag: [bool(body["set"])] when "set" is in the body, the
    negation of the current one otherwise. *)
Definition maint_new_state (body current : pyval) : result bool :=
  match py_contains "set" body with
  | Err x => Err x
  | Ok true =>
      match py_getitem body "set" with
      | Ok v => Ok (py_bool v)
      | Err x => Err x
      end
  | Ok false => Ok (negb (py_bool current))
  end.

(** The loop over [config["buttons"]]: every button whose endpoint is
    "/maint" gets the new toggle state. *)
Fixpoint maint_buttons (new_state : bool) (btns : list pyval)
  : result (list pyval) :=
  match btns with
  | [] => Ok []
  | btn :: r =>
      match py_get btn "endpoint" PNone with
      | Err x => Err x
      | Ok ep =>
          match (if py_eq_str ep "/maint"
                 then py_setitem btn "toggleState" (PBool new_state)
                 else Ok btn) with
          | Err x => Err x
          | Ok btn' =>
              match maint_buttons new_state r with
              | Ok r' => Ok (btn' :: r')
              | Err x => Err x
              end
          end
      end
  end.

(** [if "buttons" in config: for btn in config["buttons"]: ...], giving
    the configuration with its buttons updated in place. *)
Definition maint_update_buttons (new_state : bool) (config : pyval)
  : result pyval :=
  match py_contains "buttons" config with
  | Err x => Err x
  | Ok false => Ok config
  | Ok true =>
      match py_getitem config "buttons" with
      | Err x => Err x
      | Ok (PList l) =>
          match maint_buttons new_state l with
          | Ok l' => py_setitem config "buttons" (PList l')
          | Err x => Err x
          end
      | Ok other =>
          match py_iter other with
          | Err x => Err x
          | Ok items =>
              match maint_buttons new_state items with
              | Ok _ => Ok config
              | Err x => Err x
              end
          end
      end
  end.

(** [if "system" not in config: config["system"] = {}] and
    [config["system"]["maintenance"] = new_state]. *)
Definition maint_update_system (new_state : bool) (config : pyval)
  : result pyval :=
  match py_contains "system" config with
  | Err x => Err x
  | Ok has_system =>
      match (if has_system then Ok config
             else py_setitem config "system" (PDict [])) with
      | Err x => Err x
      | Ok config1 =>
          match py_getitem config1 "system" with
          | Err x => Err x
          | Ok sys =>
              match py_setitem sys "maintenance" (PBool new_state) with
              | Err x => Err x
              | Ok sys' => py_setitem config1 "system" sys'
              end
          end
      end
  end.

Definition maint_ok (new_state : bool) : response :=
  {| body := [("status", JStr "ok"); ("maintenance", JBool new_state)];
     status := 200 |}.

Definition maint_not_persisted (new_state : bool) (msg : string) : response :=
  {| body := [("status", JStr "ok");
              ("message", JStr "Maintenance updated in memory but failed to persist");
              ("maintenance", JBool new_state);
              ("error", JStr msg)];
     status := 200 |}.

Definition set_maintenance (s : server) (new_state : bool) : server :=
  {| runtime_state :=
       dict_setitem (runtime_state s) (PStr "maintenance") (PBool new_state);
     config_file := config_file s |}.

Definition api_maint (w : pyval -> write_outcome) (req : request) (s : server)
  : result response * server :=
  match load_config (config_file s) with
  | Err x => (Err x, s)
  | Ok config =>
      let body := maint_body req in
      let current := dict_get (runtime_state s) "maintenance" (PBool false) in
      match maint_new_state body current with
      | Err x => (Err x, s)
      | Ok new_state =>
          let s1 := set_maintenance s new_state in
          match maint_update_buttons new_state config with
          | Err x => (Err x, s1)
          | Ok config1 =>
              match maint_update_system new_state config1 with
              | Err x => (Err x, s1)
              | Ok config2 =>
                  match w config2 with
                  | Written =>
                      (Ok (maint_ok new_state),
                       {| runtime_state := runtime_state s1;
                          config_file := Parsed config2 |})
                  | WriteFailed _ msg after =>
                      (Ok (maint_not_persisted new_state msg),
                       {| runtime_state := runtime_state s1;
                          config_file := after |})
                  end
              end
          end
      end
  end.

(** ** Start-up *)

Definition sample_config : pyval :=
  PDict [(PStr "system",
          PDict [(PStr "ramTotalFormat", PStr "{total_gb}GB");
                 (PStr "maintenance", PBool false)])].

(** The main block up to [app.run]: create the file when it is missing,
    load it, and take the maintenance flag from it (its print is left
    out). *)
Definition startup (w : pyval -> write_outcome) (s : server)
  : result unit * server :=
  let created :=
    match config_file s with
    | Missing => save_config w sample_config
    | f => (Ok tt, f)
    end in
  match created with
  | (Err x, f) => (Err x, {| runtime_state := runtime_state s; config_file := f |})
  | (Ok _, f) =>
      let s0 := {| runtime_state := runtime_state s; config_file := f |} in
      match load_config f with
      | Err x => (Err x, s0)
      | Ok cfg =>
          match py_get cfg "system" (PDict []) with
          | Err x => (Err x, s0)
          | Ok sys =>
              match py_get sys "maintenance" (PBool false) with
              | Err x => (Err x, s0)
              | Ok m => (Ok tt, set_maintenance s0 (py_bool m))
              end
          end
      end
  end.

(** ** GET /buttons *)

(** The keyword arguments [render_button_value] hands to [str.format]. *)
Definition placeholders (rs system_metrics : pydict) : pydict :=
  [(PStr "cpu", dict_get system_metrics "cpuUsage" PNone);
   (PStr "ramUsage", dict_get system_metrics "ramUsage" PNone);
   (PStr "ramTotal", dict_get system_metrics "ramTotal" PNone);
   (PStr "ramUsed", dict_get system_metrics "ramUsed" PNone);
   (PStr "cache_cleared", dict_get rs "cache_cleared" PNone);
   (PStr "maintenance", dict_get rs "maintenance" PNone)].

(** [fmt template kwargs] stands for [template.format( **kwargs)]. *)
Definition render_button_value (fmt : string -> pydict -> result string)
           (rs : pydict) (value_template : pyval) (system_metrics : pydict)
  : pyval :=
  match value_template with
  | PStr t =>
      match fmt t (placeholders rs system_metrics) with
      | Ok r => PStr r
      | Err _ => value_template
      end
  | _ => value_template
  end.

(** The body of the loop of [api_buttons]. *)
Definition process_button (fmt : string -> pydict -> result string)
           (rs sys_metrics : pydict) (btn : pyval) : M pyval :=
  copy_btn <- lift (py_dict btn) ;;
  let copy_btn1 :=
    if dict_contains copy_btn "value"
    then dict_setitem copy_btn (PStr "value")
           (render_button_value fmt rs (dict_get copy_btn "value" PNone) sys_metrics)
    else copy_btn in
  let copy_btn2 :=
    if py_eq_str (dict_get copy_btn1 "endpoint" PNone) "/maint"
    then dict_setitem copy_btn1 (PStr "toggleState")
           (dict_get rs "maintenance"
                     (dict_get copy_btn1 "toggleState" (PBool false)))
    else copy_btn1 in
  copy_btn3 <-
    (if py_eq_str (dict_get copy_btn2 "endpoint" PNone) "/web-ui"
     then online <- is_online "192.168.23.1" ;;
          ret (dict_setitem copy_btn2 (PStr "toggleState") (PBool online))
     else ret copy_btn2) ;;
  ret (PDict copy_btn3).

Fixpoint process_buttons (fmt : string -> pydict -> result string)
         (rs sys_metrics : pydict) (btns : list pyval) : M (list pyval) :=
  match btns with
  | [] => ret []
  | btn :: r =>
      b <- process_button fmt rs sys_metrics btn ;;
      bs <- process_buttons fmt rs sys_metrics r ;;
      ret (b :: bs)
  end.

(** [get_system_metrics] is given by what it returns or raises; the
    result is the pair handed to Flask, the list before [jsonify]. *)
Definition api_buttons (fmt : string -> pydict -> result string)
           (get_system_metrics : result pydict) (s : server)
  : M (pyval * Z) :=
  config <- lift (load_config (config_file s)) ;;
  buttons <- lift (py_get config "buttons" (PList [])) ;;
  sys_metrics <- lift get_system_metrics ;;
  btns <- lift (py_iter buttons) ;;
  processed <- process_buttons fmt (runtime_state s) sys_metrics btns ;;
  ret (PList processed, 200%Z).

(** ** Predicates of the further properties *)

(** [runtime_state] holds the maintenance flag as a boolean and nothing
    else. *)
Definition runtime_state_ok (rs : pydict) : Prop :=
  exists b, rs = [(PStr "maintenance", PBool b)].


(** The flag [runtime_state["maintenance"]], as the handlers read it. *)
Definition maintenance_flag (s : server) : pyval :=
  dict_get (runtime_state s) "maintenance" (PBool false).

(** A run of the process: start-up, then a series of POST /maint requests,
    each with its own fate of the file write. *)
Fixpoint serve_maint (reqs : list ((pyval -> write_outcome) * request))
         (s : server) : server :=
  match reqs with
  | [] => s
  | (w, req) :: r => serve_maint r (snd (api_maint w req s))
  end.

(** The process as the module is loaded, before the main block. *)
Definition fresh_process (f : file_state) : server :=
  {| runtime_state := initial_runtime_state; config_file := f |}.

Definition is_mapping (v : pyval) : bool :=
  match v with
  | PDict _ => true
  | _ => false
  end.

Definition is_close (ev : event) : bool :=
  match ev with
  | Ev Socket_close _ => true
  | _ => false
  end.

Definition is_print (ev : event) : bool :=
  match ev with
  | Ev (Stdout_print _) _ => true
  | _ => false
  end.

Definition opened_socket (ev : event) : bool :=
  match ev with
  | Ev Socket_socket (Ok _) => true
  | _ => false
  end.

Definition is_separator (c : ascii) : bool :=
  Ascii.eqb c ":" || Ascii.eqb c "-".

(** Where the decoder of [bytes.fromhex] stands after a prefix of its
    input: [Some pending] while it is alive, [None] once it has met a
    character it rejects. *)
Fixpoint fromhex_scan (pending : option N) (s : string) : option (option N) :=
  match s, pending with
  | EmptyString, _ => Some pending
  | String c r, None =>
      if Py.is_space c then fromhex_scan None r
      else match Py.hex_digit_value c with
           | Some hi => fromhex_scan (Some hi) r
           | None => None
           end
  | String c r, Some _ =>
      match Py.hex_digit_value c with
      | Some _ => fromhex_scan None r
      | None => None
      end
  end.

(** A button of the configuration after the loop of [api_maint]. *)
Definition with_toggle_state (new_state : bool) (btn : pyval) : pyval :=
  match btn with
  | PDict d =>
      if py_eq_str (dict_get d "endpoint" PNone) "/maint"
      then PDict (dict_setitem d (PStr "toggleState") (PBool new_state))
      else btn
  | _ => btn
  end.

(** ** The configuration as an object graph *)

(** [yaml.safe_load] returns objects: a list or mapping that the file
    anchors once and uses in several places through aliases is one object,
    and [api_maint] changes objects in place.  Here a value is a scalar or
    the address of a list or mapping in a store; [api_maint_graph] is
    [api_maint] read on such a graph.  Keys of mappings are scalars. *)
Inductive ref_val : Type :=
| VNone
| VBool (b : bool)
| VInt (z : Z)
| VStr (s : string)
| VRef (a : nat).

Inductive object : Type :=
| OList (l : list ref_val)
| ODict (d : list (ref_val * ref_val)).

Definition heap : Type := list object.

Record graph : Type := {
  root : ref_val;
  objects : heap
}.

(** [v == s] for a string literal [s]. *)
Definition val_is (v : ref_val) (s : string) : bool :=
  match v with
  | VStr t => (t =? s)%string
  | _ => false
  end.

Fixpoint odict_get (d : list (ref_val * ref_val)) (k : string) : option ref_val :=
  match d with
  | [] => None
  | (k', v) :: r => if val_is k' k then Some v else odict_get r k
  end.

Fixpoint odict_set (d : list (ref_val * ref_val)) (k : string) (v : ref_val)
  : list (ref_val * ref_val) :=
  match d with
  | [] => [(VStr k, v)]
  | (k', v') :: r =>
      if val_is k' k then (k', v) :: r else (k', v') :: odict_set r k v
  end.

(** The store with the object at address [a] replaced. *)
Fixpoint store (h : heap) (a : nat) (o : object) : heap :=
  match h, a with
  | [], _ => []
  | _ :: r, O => o :: r
  | x :: r, S a' => x :: store r a' o
  end.

Definition deref (h : heap) (v : ref_val) : option object :=
  match v with
  | VRef a => nth_error h a
  | _ => None
  end.

(** [bool(v)] *)
Definition g_bool (h : heap) (v : ref_val) : bool :=
  match v with
  | VNone => false
  | VBool b => b
  | VInt z => negb (z =? 0)%Z
  | VStr s => negb (s =? "")%string
  | VRef a =>
      match nth_error h a with
      | Some (OList []) | Some (ODict []) => false
      | _ => true
      end
  end.

(** [k in x] *)
Definition g_contains (k : string) (h : heap) (x : ref_val) : result bool :=
  match x with
  | VStr s => Ok (str_contains k s)
  | VRef a =>
      match nth_error h a with
      | Some (ODict d) =>
          Ok (match odict_get d k with Some _ => true | None => false end)
      | Some (OList l) => Ok (existsb (fun v => val_is v k) l)
      | None => Err TypeError
      end
  | _ => Err TypeError
  end.

(** [x[k]] *)
Definition g_getitem (h : heap) (x : ref_val) (k : string) : result ref_val :=
  match deref h x with
  | Some (ODict d) =>
      match odict_get d k with
      | Some v => Ok v
      | None => Err KeyError
      end
  | _ => Err TypeError
  end.

(** [x.get(k, default)] *)
Definition g_get (h : heap) (x : ref_val) (k : string) (default : ref_val)
  : result ref_val :=
  match deref h x with
  | Some (ODict d) =>
      Ok (match odict_get d k with Some v => v | None => default end)
  | _ => Err AttributeError
  end.

(** [x[k] = v]: the store afterwards. *)
Definition g_setitem (h : heap) (x : ref_val) (k : string) (v : ref_val)
  : result heap :=
  match x with
  | VRef a =>
      match nth_error h a with
      | Some (ODict d) => Ok (store h a (ODict (odict_set d k v)))
      | _ => Err TypeError
      end
  | _ => Err TypeError
  end.

(** The items [for v in x] goes through. *)
Definition g_iter (h : heap) (x : ref_val) : result (list ref_val) :=
  match x with
  | VStr s =>
      Ok (map (fun c => VStr (String c EmptyString)) (list_ascii_of_string s))
  | VRef a =>
      match nth_error h a with
      | Some (OList l) => Ok l
      | Some (ODict d) => Ok (map fst d)
      | None => Err TypeError
      end
  | _ => Err TypeError
  end.

Inductive graph_file : Type :=
| GMissing
| GUnreadable (x : exn)
| GParsed (g : graph).

Inductive graph_write : Type :=
| GWritten
| GWriteFailed (x : exn) (msg : string) (after : graph_file).

(** [{"system": {}, "buttons": []}] *)
Definition default_graph : graph :=
  {| root := VRef 0;
     objects := [ODict [(VStr "system", VRef 1); (VStr "buttons", VRef 2)];
                 ODict []; OList []] |}.

Definition load_graph (f : graph_file) : result graph :=
  match f with
  | GMissing => Ok default_graph
  | GUnreadable x => Err x
  | GParsed g => Ok (if g_bool (objects g) (root g) then g else default_graph)
  end.

(** The loop over [config["buttons"]]; each assignment is seen by the
    iterations after it. *)
Fixpoint maint_buttons_graph (new_state : bool) (btns : list ref_val) (h : heap)
  : result heap :=
  match btns with
  | [] => Ok h
  | btn :: r =>
      match g_get h btn "endpoint" VNone with
      | Err x => Err x
      | Ok ep =>
          match (if val_is ep "/maint"
                 then g_setitem h btn "toggleState" (VBool new_state)
                 else Ok h) with
          | Err x => Err x
          | Ok h1 => maint_buttons_graph new_state r h1
          end
      end
  end.

Definition maint_update_buttons_graph (new_state : bool) (config : ref_val)
           (h : heap) : result heap :=
  match g_contains "buttons" h config with
  | Err x => Err x
  | Ok false => Ok h
  | Ok true =>
      match g_getitem h config "buttons" with
      | Err x => Err x
      | Ok v =>
          match g_iter h v with
          | Err x => Err x
          | Ok items => maint_buttons_graph new_state items h
          end
      end
  end.

(** [config["system"] = {}] makes a new mapping, at the next free
    address. *)
Definition maint_update_system_graph (new_state : bool) (config : ref_val)
           (h : heap) : result heap :=
  match g_contains "system" h config with
  | Err x => Err x
  | Ok has_system =>
      match (if has_system then Ok h
             else g_setitem (h ++ [ODict []]) config "system"
                            (VRef (List.length h))) with
      | Err x => Err x
      | Ok h1 =>
          match g_getitem h1 config "system" with
          | Err x => Err x
          | Ok sys => g_setitem h1 sys "maintenance" (VBool new_state)
          end
      end
  end.

(** [api_maint], with the process given by [runtime_state] and the file. *)
Definition api_maint_graph (w : graph -> graph_write) (req : request)
           (rs : pydict) (f : graph_file)
  : result response * (pydict * graph_file) :=
  match load_graph f with
  | Err x => (Err x, (rs, f))
  | Ok g =>
      let body := maint_body req in
      let current := dict_get rs "maintenance" (PBool false) in
      match maint_new_state body current with
      | Err x => (Err x, (rs, f))
      | Ok new_state =>
          let rs1 := dict_setitem rs (PStr "maintenance") (PBool new_state) in
          match maint_update_buttons_graph new_state (root g) (objects g) with
          | Err x => (Err x, (rs1, f))
          | Ok h1 =>
              match maint_update_system_graph new_state (root g) h1 with
              | Err x => (Err x, (rs1, f))
              | Ok h2 =>
                  let g2 := {| root := root g; objects := h2 |} in
                  match w g2 with
                  | GWritten => (Ok (maint_ok new_state), (rs1, GParsed g2))
                  | GWriteFailed _ msg after =>
                      (Ok (maint_not_persisted new_state msg), (rs1, after))
                  end
              end
          end
      end
  end.

Definition refers_to (a : nat) (v : ref_val) : bool :=
  match v with
  | VRef a' => (a' =? a)%nat
  | _ => false
  end.

(** [d.get("endpoint") == s] *)
Definition endpoint_is (d : list (ref_val * ref_val)) (s : string) : bool :=
  match odict_get d "endpoint" with
  | Some v => val_is v s
  | None => false
  end.

(** A mapping at address [a] after the loop over the buttons [btns]. *)
Definition after_toggle (new_state : bool) (btns : list ref_val) (a : nat)
           (o : object) : object :=
  match o with
  | ODict d =>
      if existsb (refers_to a) btns && endpoint_is d "/maint"
      then ODict (odict_set d "toggleState" (VBool new_state))
      else o
  | OList _ => o
  end.

(** The buttons the loop goes through: the items of [config["buttons"]],
    none when there is no such entry. *)
Definition graph_buttons (h : heap) (config : ref_val) : list ref_val :=
  match g_contains "buttons" h config with
  | Ok true =>
      match g_getitem h config "buttons" with
      | Ok v => match g_iter h v with Ok items => items | Err _ => [] end
      | Err _ => []
      end
  | _ => []
  end.

(** What [api_maint] makes of the object at address [a]: the toggle state
    when it is a "/maint" button, a "system" entry when it is the
    configuration and had none, the maintenance flag when it is the system
    mapping [a_sys]. *)
Definition after_maint (new_state : bool) (h : heap) (a_cfg a_sys : nat)
           (a : nat) (o : object) : object :=
  match after_toggle new_state (graph_buttons h (VRef a_cfg)) a o with
  | OList l => OList l
  | ODict d1 =>
      let d2 :=
        if (a =? a_cfg)%nat && (a_sys =? List.length h)%nat
        then odict_set d1 "system" (VRef a_sys) else d1 in
      if (a =? a_sys)%nat
      then ODict (odict_set d2 "maintenance" (VBool new_state))
      else ODict d2
  end.
(** * Properties *)

(** ** Strings and [bytes.fromhex] *)

Ltac each_ascii c :=
  destruct c as [[] [] [] [] [] [] [] []].

Lemma str_length_app (a b : string) :
  String.length (a ++ b) = (String.length a + String.length b)%nat.
Proof. induction a as [|c a IH]; simpl; [reflexivity | now rewrite IH]. Qed.

Lemma str_app_assoc (a b c : string) : ((a ++ b) ++ c = a ++ (b ++ c))%string.
Proof. induction a as [|x a IH]; simpl; [reflexivity | now rewrite IH]. Qed.

Lemma option_map_app_nil (o : option (list byte)) : option_map (app []) o = o.
Proof. now destruct o. Qed.

(** Once a prefix has been decoded completely, decoding resumes on the rest
    at a byte boundary. *)
Lemma fromhex_from_app (a b : string) :
  forall p x,
    Py.fromhex_from p a = Some x ->
    Py.fromhex_from p (a ++ b) = option_map (app x) (Py.fromhex_from None b).
Proof.
  induction a as [|c a IH]; intros p x H.
  - destruct p; simpl in H; [discriminate|].
    injection H as <-. simpl. now rewrite option_map_app_nil.
  - destruct p as [hi|]; simpl in *.
    + destruct (Py.hex_digit_value c) as [lo|]; [|discriminate].
      destruct (Py.fromhex_from None a) as [bs|] eqn:E; [|discriminate].
      injection H as <-.
      rewrite (IH None bs E).
      now destruct (Py.fromhex_from None b).
    + destruct (Py.is_space c); [now apply IH|].
      destruct (Py.hex_digit_value c); [now apply IH | discriminate].
Qed.

Lemma bytes_fromhex_app (a b : string) (x y : list byte) :
  Py.bytes_fromhex a = Some x ->
  Py.bytes_fromhex b = Some y ->
  Py.bytes_fromhex (a ++ b) = Some (x ++ y).
Proof.
  unfold Py.bytes_fromhex. intros Ha Hb.
  now rewrite (fromhex_from_app a b None x Ha), Hb.
Qed.

Lemma bytes_fromhex_mul (s : string) (x : list byte) (n : nat) :
  Py.bytes_fromhex s = Some x ->
  Py.bytes_fromhex (Py.str_mul s n) = Some (concat (repeat x n)).
Proof.
  intros H. induction n as [|n IH]; simpl; [reflexivity|].
  now apply bytes_fromhex_app.
Qed.

Lemma hex_digit_not_space (c : ascii) :
  Py.is_hex_digit c = true -> Py.is_space c = false.
Proof. each_ascii c; vm_compute; congruence. Qed.

(** An even number of hexadecimal digits decodes to half as many bytes. *)
Lemma bytes_fromhex_digits (k : nat) :
  forall s,
    String.length s = (2 * k)%nat ->
    Py.str_forallb Py.is_hex_digit s = true ->
    exists bs, Py.bytes_fromhex s = Some bs /\ List.length bs = k.
Proof.
  unfold Py.bytes_fromhex.
  induction k as [|k IH]; intros s Hlen Hhex.
  - destruct s; [|discriminate]. now exists [].
  - destruct s as [|c1 [|c2 r]]; simpl in Hlen; try lia.
    simpl in Hhex.
    apply andb_true_iff in Hhex as [H1 Hhex].
    apply andb_true_iff in Hhex as [H2 Hhex].
    destruct (IH r ltac:(lia) Hhex) as (bs & Hbs & Hl).
    simpl. rewrite (hex_digit_not_space c1 H1).
    unfold Py.is_hex_digit in H1, H2.
    destruct (Py.hex_digit_value c1) as [hi|]; [|discriminate].
    destruct (Py.hex_digit_value c2) as [lo|]; [|discriminate].
    rewrite Hbs. eexists. split; [reflexivity|]. simpl. now rewrite Hl.
Qed.

Lemma length_concat_repeat {A} (x : list A) (n : nat) :
  List.length (concat (repeat x n)) = (n * List.length x)%nat.
Proof.
  induction n as [|n IH]; simpl; [reflexivity|].
  now rewrite length_app, IH.
Qed.

(** A character that is neither a hexadecimal digit nor whitespace makes
    the decoder fail wherever it stands. *)
Lemma fromhex_from_rejects (s : string) :
  forall p,
    Py.str_existsb (fun c => negb (Py.is_hex_digit c) && negb (Py.is_space c)) s = true ->
    Py.fromhex_from p s = None.
Proof.
  unfold Py.is_hex_digit.
  induction s as [|c r IH]; intros p H; simpl in H; [discriminate|].
  destruct p as [hi|]; simpl.
  - destruct (Py.hex_digit_value c) as [lo|]; [|reflexivity].
    simpl in H. now rewrite (IH None H).
  - destruct (Py.is_space c).
    + rewrite andb_false_r in H. simpl in H. now apply IH.
    + destruct (Py.hex_digit_value c); [|reflexivity].
      simpl in H. now apply IH.
Qed.

Lemma str_existsb_app (p : ascii -> bool) (a b : string) :
  Py.str_existsb p (a ++ b) = Py.str_existsb p a || Py.str_existsb p b.
Proof.
  induction a as [|c a IH]; simpl; [reflexivity|].
  now rewrite IH, orb_assoc.
Qed.

(** The shape of the packet, for every valid normalized address. *)
Lemma magic_packet_shape (m : string) :
  valid_normalized m ->
  exists addr,
    Py.bytes_fromhex m = Some addr
    /\ List.length addr = 6%nat
    /\ magic_packet m = Some (repeat xff 6 ++ concat (repeat addr 16)).
Proof.
  intros [Hlen Hhex].
  destruct (bytes_fromhex_digits 6 m Hlen Hhex) as (addr & Haddr & Hl).
  exists addr. repeat split; trivial.
  unfold magic_packet.
  apply bytes_fromhex_app; [reflexivity|].
  now apply bytes_fromhex_mul.
Qed.

(** *** Maps on characters that keep digit values, whitespace and
        separators: letter case is one. *)
Section CharMap.

Variable f : ascii -> ascii.
Hypothesis f_hex : forall c, Py.hex_digit_value (f c) = Py.hex_digit_value c.
Hypothesis f_space : forall c, Py.is_space (f c) = Py.is_space c.
Hypothesis f_colon : forall c, Ascii.eqb (f c) ":" = Ascii.eqb c ":".
Hypothesis f_hyphen : forall c, Ascii.eqb (f c) "-" = Ascii.eqb c "-".

Lemma fromhex_from_map (s : string) :
  forall p, Py.fromhex_from p (Py.str_map f s) = Py.fromhex_from p s.
Proof.
  induction s as [|c r IH]; intros p; [reflexivity|].
  destruct p; simpl; rewrite ?f_hex, ?f_space.
  - destruct (Py.hex_digit_value c); [now rewrite IH | reflexivity].
  - destruct (Py.is_space c); [apply IH|].
    destruct (Py.hex_digit_value c); [apply IH | reflexivity].
Qed.

Lemma str_map_app (a b : string) :
  Py.str_map f (a ++ b) = (Py.str_map f a ++ Py.str_map f b)%string.
Proof. induction a as [|c a IH]; simpl; [reflexivity | now rewrite IH]. Qed.

Lemma str_map_mul (s : string) (n : nat) :
  Py.str_map f (Py.str_mul s n) = Py.str_mul (Py.str_map f s) n.
Proof.
  induction n as [|n IH]; simpl; [reflexivity|].
  now rewrite str_map_app, IH.
Qed.

Lemma str_map_strip (old : ascii) (s : string) :
  (forall c, Ascii.eqb (f c) old = Ascii.eqb c old) ->
  Py.str_replace old "" (Py.str_map f s) = Py.str_map f (Py.str_replace old "" s).
Proof.
  intros H. induction s as [|c r IH]; simpl; [reflexivity|].
  rewrite H. destruct (Ascii.eqb c old); simpl; now rewrite IH.
Qed.

Lemma normalize_mac_map (mac : string) :
  normalize_mac (Py.str_map f mac) = Py.str_map f (normalize_mac mac).
Proof.
  unfold normalize_mac.
  now rewrite (str_map_strip ":"), (str_map_strip "-").
Qed.

Lemma magic_packet_map (m : string) :
  magic_packet (Py.str_map f m) = magic_packet m.
Proof.
  unfold magic_packet, Py.bytes_fromhex.
  destruct (Py.fromhex_from None (Py.str_mul "FF" 6)) as [x|] eqn:E;
    [|discriminate].
  rewrite !(fromhex_from_app _ _ None x E).
  now rewrite <- str_map_mul, fromhex_from_map.
Qed.

End CharMap.

Lemma lower_hex c : Py.hex_digit_value (Py.ascii_lower c) = Py.hex_digit_value c.
Proof. each_ascii c; reflexivity. Qed.

Lemma lower_space c : Py.is_space (Py.ascii_lower c) = Py.is_space c.
Proof. each_ascii c; reflexivity. Qed.

Lemma lower_sep (sep : ascii) c :
  sep = ":"%char \/ sep = "-"%char ->
  Ascii.eqb (Py.ascii_lower c) sep = Ascii.eqb c sep.
Proof. intros [-> | ->]; each_ascii c; reflexivity. Qed.

Lemma upper_hex c : Py.hex_digit_value (Py.ascii_upper c) = Py.hex_digit_value c.
Proof. each_ascii c; reflexivity. Qed.

Lemma upper_space c : Py.is_space (Py.ascii_upper c) = Py.is_space c.
Proof. each_ascii c; reflexivity. Qed.

Lemma upper_sep (sep : ascii) c :
  sep = ":"%char \/ sep = "-"%char ->
  Ascii.eqb (Py.ascii_upper c) sep = Ascii.eqb c sep.
Proof. intros [-> | ->]; each_ascii c; reflexivity. Qed.

Lemma magic_packet_lower (mac : string) :
  magic_packet (normalize_mac (Py.str_lower mac)) = magic_packet (normalize_mac mac).
Proof.
  unfold Py.str_lower.
  rewrite (normalize_mac_map _ (fun c => lower_sep ":" c (or_introl eq_refl))
                               (fun c => lower_sep "-" c (or_intror eq_refl))).
  apply magic_packet_map; [apply lower_hex | apply lower_space].
Qed.

Lemma magic_packet_upper (mac : string) :
  magic_packet (normalize_mac (Py.str_upper mac)) = magic_packet (normalize_mac mac).
Proof.
  unfold Py.str_upper.
  rewrite (normalize_mac_map _ (fun c => upper_sep ":" c (or_introl eq_refl))
                               (fun c => upper_sep "-" c (or_intror eq_refl))).
  apply magic_packet_map; [apply upper_hex | apply upper_space].
Qed.

(** ** Running handlers *)

Lemma bind_run {A B} (m : M A) (k : A -> M B) e h :
  bind m k e h =
  match m e h with
  | (Return a, t1) => (fst (k a e (h ++ t1)), t1 ++ snd (k a e (h ++ t1)))
  | (Raise x, t1) => (Raise x, t1)
  | (Pending, t1) => (Pending, t1)
  end.
Proof.
  unfold bind. destruct (m e h) as [[a|x|] t1]; trivial.
  now destruct (k a e (h ++ t1)).
Qed.

Lemma count_app (p : event -> bool) (a b : trace) :
  count p (a ++ b) = (count p a + count p b)%nat.
Proof. unfold count. now rewrite filter_app, length_app. Qed.

Lemma probes_target_ping (t : string) (a : result Z) :
  probes_target t (Ev (Subprocess_call (ping_command t)) a) = true.
Proof.
  unfold probes_target.
  destruct (list_eq_dec string_dec (ping_command t) (ping_command t));
    [reflexivity | contradiction].
Qed.

Lemma probes_target_get (t : string) (p : ParseResult) (a : result Z) :
  probes_target t
    (Ev (Requests_get (if (scheme p =? "")%string
                       then ("http://" ++ t)%string else t) 1) a) = true.
Proof.
  simpl. destruct (scheme p =? "")%string.
  - change (String "h" (String "t" (String "t" (String "p"
             (String ":" (String "/" (String "/" t)))))))
      with ("http://" ++ t)%string.
    rewrite (String.eqb_refl ("http://" ++ t)). apply orb_true_r.
  - now rewrite String.eqb_refl.
Qed.

(** One call of the prober, branch by branch. *)
Lemma is_online_run (target : string) e h :
  is_online target e h =
  match ip_address e target with
  | Some _ =>
      let c := Subprocess_call (ping_command target) in
      match respond e h c with
      | Ok rc => (Return (rc =? 0)%Z, [Ev c (Ok rc)])
      | Err x => (Raise x, [Ev c (Err x)])
      end
  | None =>
      match urlparse e target with
      | Ok p =>
          let c := Requests_get (probe_url p target) 1 in
          match respond e h c with
          | Ok st => (Return (st =? 200)%Z, [Ev c (Ok st)])
          | Err x =>
              if isinstance_RequestException x
              then (Return false, [Ev c (Err x)])
              else (Raise x, [Ev c (Err x)])
          end
      | Err x => (Raise x, [])
      end
  end.
Proof.
  unfold is_online, _is_ip_address, bind.
  destruct (ip_address e target).
  - rewrite app_nil_r. unfold perform. simpl.
    destruct (respond e h _); reflexivity.
  - rewrite app_nil_r.
    destruct (urlparse e target) as [p|x]; simpl; [|reflexivity].
    unfold try_except, bind, perform, probe_url. rewrite app_nil_r.
    destruct (respond e h _) as [st|x]; simpl; [reflexivity|].
    destruct (isinstance_RequestException x); reflexivity.
Qed.

Lemma is_online_probed (target : string) e h :
  probed target (fst (is_online target e h)) (snd (is_online target e h)).
Proof.
  rewrite is_online_run.
  destruct (ip_address e target).
  - cbv zeta. destruct (respond e h _) as [rc|x]; simpl.
    + apply (probed_result target (Ev (Subprocess_call (ping_command target)) (Ok rc)));
        [reflexivity | apply probes_target_ping].
    + apply probed_raised; [reflexivity | apply probes_target_ping | reflexivity].
  - destruct (urlparse e target) as [p|x]; [|apply probed_unparsed].
    cbv zeta. unfold probe_url.
    destruct (respond e h _) as [st|x]; simpl.
    + apply (probed_result target (Ev (Requests_get _ 1) (Ok st)));
        [reflexivity | apply probes_target_get].
    + destruct (isinstance_RequestException x); simpl.
      * apply (probed_result target (Ev (Requests_get _ 1) (Err x)));
          [reflexivity | apply probes_target_get].
      * apply probed_raised; [reflexivity | apply probes_target_get | reflexivity].
Qed.

Lemma not_online_run (target : string) e h :
  not_online target e h =
  match is_online target e h with
  | (Return b, t) => (Return (negb b), t)
  | (Raise x, t) => (Raise x, t)
  | (Pending, t) => (Pending, t)
  end.
Proof.
  unfold not_online, bind, ret.
  destruct (is_online target e h) as [[b|x|] t]; trivial.
  now rewrite app_nil_r.
Qed.

(** One turn of a polling loop whose body only sleeps and prints. *)
Lemma while_not_online_step (n : nat) (target : string) (body : M unit)
      (d : trace) e h :
  (forall h', body e h' = (Return tt, d)) ->
  while (S n) (not_online target) body e h =
  match is_online target e h with
  | (Return true, t) => (Return tt, t)
  | (Return false, t) =>
      (fst (while n (not_online target) body e ((h ++ t) ++ d)),
       t ++ d ++ snd (while n (not_online target) body e ((h ++ t) ++ d)))
  | (Raise x, t) => (Raise x, t)
  | (Pending, t) => (Pending, t)
  end.
Proof.
  intros Hbody. simpl. rewrite bind_run, not_online_run.
  destruct (is_online target e h) as [[[]|x|] t]; simpl; trivial.
  - now rewrite app_nil_r.
  - rewrite bind_run, Hbody. reflexivity.
Qed.

Lemma waiting_for_server_run e h :
  waiting_for_server e h =
  (Return tt, [Ev (Time_sleep 1) (Ok 0%Z);
               Ev (Stdout_print "Waiting for AI server to come online...") (Ok 0%Z)]).
Proof. reflexivity. Qed.

Lemma waiting_for_web_ui_run e h :
  waiting_for_web_ui e h =
  (Return tt, [Ev (Time_sleep 1) (Ok 0%Z);
               Ev (Stdout_print "Waiting for AI Web UI to come online...") (Ok 0%Z)]).
Proof. reflexivity. Qed.

(** ** The wake signaler *)

Lemma wake_on_lan_run (mac : string) e h :
  wake_on_lan mac e h =
  let m := normalize_mac mac in
  if negb (String.length m =? 12)%nat
  then (Raise (ValueError "MAC address should be 12 hexadecimal digits"), [])
  else
    match magic_packet m with
    | None => (Raise fromhex_error, [])
    | Some data =>
        let send := Sendto data "<broadcast>" 9 in
        match respond e h Socket_socket with
        | Err x => (Raise x, [Ev Socket_socket (Err x)])
        | Ok s =>
            let h1 := h ++ [Ev Socket_socket (Ok s)] in
            match respond e h1 Setsockopt_broadcast with
            | Err x =>
                (Raise x, [Ev Socket_socket (Ok s);
                           Ev Setsockopt_broadcast (Err x);
                           Ev Socket_close (Ok 0%Z)])
            | Ok r =>
                let h2 := h1 ++ [Ev Setsockopt_broadcast (Ok r)] in
                match respond e h2 send with
                | Err x =>
                    (Raise x, [Ev Socket_socket (Ok s);
                               Ev Setsockopt_broadcast (Ok r);
                               Ev send (Err x);
                               Ev Socket_close (Ok 0%Z)])
                | Ok n =>
                    (Return tt,
                     [Ev Socket_socket (Ok s);
                      Ev Setsockopt_broadcast (Ok r);
                      Ev send (Ok n);
                      Ev Socket_close (Ok 0%Z);
                      Ev (Stdout_print ("Magic packet sent to " ++ m)%string) (Ok 0%Z)])
                end
            end
        end
    end.
Proof.
  unfold wake_on_lan. cbv zeta.
  destruct (negb (String.length (normalize_mac mac) =? 12)%nat); [reflexivity|].
  destruct (magic_packet (normalize_mac mac)) as [data|]; [|reflexivity].
  unfold bind at 1. unfold ret at 1. rewrite app_nil_r.
  unfold bind, try_finally, perform, emit. simpl.
  destruct (respond e h Socket_socket) as [s|x]; [|reflexivity].
  simpl.
  destruct (respond e (h ++ [Ev Socket_socket (Ok s)]) Setsockopt_broadcast)
    as [r|x]; [|reflexivity].
  simpl.
  destruct (respond e _ (Sendto data "<broadcast>" 9)) as [n|x]; reflexivity.
Qed.

Ltac wake_cases mac e h :=
  rewrite (wake_on_lan_run mac e h); cbv zeta;
  destruct (negb (String.length (normalize_mac mac) =? 12)%nat) eqn:?;
  [| destruct (magic_packet (normalize_mac mac)) as [?data|] eqn:?;
     [ destruct (respond e h Socket_socket) as [?s|?x];
       [ destruct (respond e (h ++ [Ev Socket_socket (Ok s)]) Setsockopt_broadcast)
           as [?r|?x];
         [ destruct (respond e _ (Sendto data "<broadcast>" 9)) as [?n|?x] | ]
       | ]
     | ] ].

Ltac pick_event H :=
  simpl in H;
  repeat match type of H with
         | _ \/ _ => destruct H as [H|H]
         | False => contradiction
         end.

(** Whatever the sockets do, the only datagram [wake_on_lan] hands to
    [sendto] is the magic packet of the normalized address, for the
    broadcast address on port 9. *)
Lemma wake_on_lan_sends (mac : string) e h (pkt : list byte) :
  magic_packet (normalize_mac mac) = Some pkt ->
  forall ev, In ev (snd (wake_on_lan mac e h)) -> is_send ev = true ->
             exists a, ev = Ev (Sendto pkt "<broadcast>" 9) a.
Proof.
  intros Hpkt ev Hin Hsend. revert Hin.
  wake_cases mac e h; intros Hin; pick_event Hin; subst ev;
    try discriminate Hsend;
    injection Hpkt as <-; eauto.
Qed.

(** The wake phase probes nothing, sends at most once, and when it returns
    it has sent the magic packet exactly once. *)
Lemma wake_on_lan_phase (mac : string) e h :
  count is_probe (snd (wake_on_lan mac e h)) = 0%nat
  /\ (count is_send (snd (wake_on_lan mac e h)) <= 1)%nat
  /\ fst (wake_on_lan mac e h) <> Pending
  /\ (fst (wake_on_lan mac e h) = Return tt ->
      exists pkt n,
        magic_packet (normalize_mac mac) = Some pkt
        /\ filter is_send (snd (wake_on_lan mac e h))
           = [Ev (Sendto pkt "<broadcast>" 9) (Ok n)]).
Proof.
  wake_cases mac e h; simpl; unfold count; simpl;
    (repeat split; [lia | discriminate | intros H; try discriminate H; eauto]).
Qed.

Lemma wake_on_lan_invalid_length (mac : string) e h :
  String.length (normalize_mac mac) <> 12%nat ->
  wake_on_lan mac e h
  = (Raise (ValueError "MAC address should be 12 hexadecimal digits"), []).
Proof.
  intros H. rewrite wake_on_lan_run. cbv zeta.
  apply Nat.eqb_neq in H. now rewrite H.
Qed.

(** A character that is neither a hexadecimal digit nor whitespace is
    caught by [bytes.fromhex], before the socket is created. *)
Lemma wake_on_lan_invalid_digit (mac : string) e h :
  String.length (normalize_mac mac) = 12%nat ->
  Py.str_existsb (fun c => negb (Py.is_hex_digit c) && negb (Py.is_space c))
                 (normalize_mac mac) = true ->
  wake_on_lan mac e h = (Raise fromhex_error, []).
Proof.
  intros Hlen Hbad. rewrite wake_on_lan_run. cbv zeta.
  apply Nat.eqb_eq in Hlen. rewrite Hlen. simpl.
  assert (magic_packet (normalize_mac mac) = None) as ->; [|reflexivity].
  unfold magic_packet, Py.bytes_fromhex.
  apply fromhex_from_rejects.
  rewrite str_existsb_app.
  change (Py.str_mul (normalize_mac mac) 16)
    with (normalize_mac mac ++ Py.str_mul (normalize_mac mac) 15)%string.
  rewrite str_existsb_app, Hbad. apply orb_true_r.
Qed.

(** ** Claims about the wake signaler *)

(** C5: hardware-address normalization strips ':' and '-', so the colon,
    hyphen and bare spellings of AA BB CC DD EE FF normalize to the same
    12-character value; an address whose normalized form is not exactly
    12 characters long, such as "AA:BB:CC", fails validation: [wake_on_lan]
    raises the ValueError of its length check and does nothing else. *)
Theorem normalization_and_length_check (mac : string) e h :
  String.length (normalize_mac mac) <> 12%nat ->
  normalize_mac "AA:BB:CC:DD:EE:FF" = "AABBCCDDEEFF"
  /\ normalize_mac "AA-BB-CC-DD-EE-FF" = "AABBCCDDEEFF"
  /\ normalize_mac "AABBCCDDEEFF" = "AABBCCDDEEFF"
  /\ String.length "AABBCCDDEEFF" = 12%nat
  /\ wake_on_lan mac e h
     = (Raise (ValueError "MAC address should be 12 hexadecimal digits"), []).
Proof.
  intros H. repeat split. now apply wake_on_lan_invalid_length.
Qed.

Lemma normalization_and_length_check_witness :
  normalize_mac "AA:BB:CC" = "AABBCC"
  /\ wake_on_lan "AA:BB:CC" (scripted [] []) []
     = (Raise (ValueError "MAC address should be 12 hexadecimal digits"), []).
Proof.
  split; [reflexivity|].
  apply (normalization_and_length_check "AA:BB:CC" (scripted [] []) []).
  simpl. lia.
Defined.



(** C10: the wake-signal payload does not depend on the letter case of the
    hexadecimal digits: for every valid address the lowercase and the
    uppercase spelling give the identical 102-byte packet, and that packet
    is what [wake_on_lan] sends for either spelling. *)
Theorem magic_packet_case_insensitive (mac : string) e h :
  valid_normalized (normalize_mac mac) ->
  exists pkt,
    List.length pkt = 102%nat
    /\ magic_packet (normalize_mac (Py.str_lower mac)) = Some pkt
    /\ magic_packet (normalize_mac (Py.str_upper mac)) = Some pkt
    /\ (forall ev,
          In ev (snd (wake_on_lan (Py.str_lower mac) e h)) ->
          is_send ev = true ->
          exists a, ev = Ev (Sendto pkt "<broadcast>" 9) a)
    /\ (forall ev,
          In ev (snd (wake_on_lan (Py.str_upper mac) e h)) ->
          is_send ev = true ->
          exists a, ev = Ev (Sendto pkt "<broadcast>" 9) a).
Proof.
  intros Hvalid.
  destruct (magic_packet_shape _ Hvalid) as (addr & Haddr & Hlen & Hpkt).
  exists (repeat xff 6 ++ concat (repeat addr 16)).
  assert (Hlo := magic_packet_lower mac). assert (Hup := magic_packet_upper mac).
  rewrite Hpkt in Hlo, Hup.
  repeat split; trivial.
  - rewrite length_app, length_concat_repeat, repeat_length, Hlen. reflexivity.
  - now apply wake_on_lan_sends.
  - now apply wake_on_lan_sends.
Qed.

Lemma magic_packet_case_insensitive_witness :
  Py.str_lower "d8:cb:8A:40:15:e5" = "d8:cb:8a:40:15:e5"
  /\ Py.str_upper "d8:cb:8A:40:15:e5" = "D8:CB:8A:40:15:E5"
  /\ exists pkt,
      List.length pkt = 102%nat
      /\ magic_packet (normalize_mac "d8:cb:8a:40:15:e5") = Some pkt
      /\ magic_packet (normalize_mac "D8:CB:8A:40:15:E5") = Some pkt.
Proof.
  split; [reflexivity|]. split; [reflexivity|].
  destruct (magic_packet_case_insensitive "d8:cb:8A:40:15:e5" (scripted [] []) [])
    as (pkt & Hlen & Hlo & Hup & _).
  - split; reflexivity.
  - exists pkt. repeat split; assumption.
Defined.

(** C9 (the code at a failing input): ten hexadecimal digits followed by
    two spaces normalize to 12 characters that are not all hexadecimal
    digits, yet [wake_on_lan] returns normally: [bytes.fromhex] skips the
    spaces, a socket is opened and an 86-byte datagram is broadcast. *)
Theorem wake_on_lan_sends_for_padded_address :
  String.length (normalize_mac "AABBCCDDEE  ") = 12%nat
  /\ Py.str_forallb Py.is_hex_digit (normalize_mac "AABBCCDDEE  ") = false
  /\ fst (wake_on_lan "AABBCCDDEE  " (scripted [] []) []) = Return tt
  /\ count is_socket_open (snd (wake_on_lan "AABBCCDDEE  " (scripted [] []) [])) = 1%nat
  /\ exists pkt,
      filter is_send (snd (wake_on_lan "AABBCCDDEE  " (scripted [] []) []))
      = [Ev (Sendto pkt "<broadcast>" 9) (Ok 86%Z)]
      /\ List.length pkt = 86%nat.
Proof.
  repeat split. eexists. split; reflexivity.
Qed.

(** ** Claims about the prober *)

(** C1 (the code at failing inputs): on a host without a [ping] executable
    [subprocess.call] raises, [is_online] has no handler around it, and the
    status endpoint raises the same [OSError] instead of answering
    [{online: false}] with 200; and a malformed URL on which [urlparse]
    itself raises escapes the prober too, as the parse precedes the [try]. *)
Theorem status_raises_when_ping_missing :
  is_online "203.0.113.5" no_ping []
  = (Raise (OSError "[Errno 2] No such file or directory: 'ping'"),
     [Ev (Subprocess_call (ping_command "203.0.113.5"))
         (Err (OSError "[Errno 2] No such file or directory: 'ping'"))])
  /\ fst (api_web_ui_status "203.0.113.5" no_ping [])
     = Raise (OSError "[Errno 2] No such file or directory: 'ping'")
  /\ is_online "http://[" no_ping []
     = (Raise (ValueError "Invalid IPv6 URL"), []).
Proof. repeat split. Qed.

(** Where [is_online] does keep its promise: with a process spawner and a
    URL parser that do not raise, every target gets a boolean. *)
Lemma is_online_returns (target : string) e h :
  (forall argv, exists rc, respond e h (Subprocess_call argv) = Ok rc) ->
  (exists p, urlparse e target = Ok p) ->
  (forall url x, respond e h (Requests_get url 1) = Err x ->
                 isinstance_RequestException x = true) ->
  exists b ev, is_online target e h = (Return b, [ev]).
Proof.
  intros Hspawn [p Hp] Hget. rewrite is_online_run.
  destruct (ip_address e target).
  - cbv zeta. destruct (Hspawn (ping_command target)) as [rc ->]. eauto.
  - rewrite Hp. cbv zeta.
    destruct (respond e h (Requests_get (probe_url p target) 1)) as [st|x] eqn:E;
      [eauto|].
    rewrite (Hget _ _ E). eauto.
Qed.

(** C4 (the code at a failing input).  The classification itself is
    total: whatever the target, [_is_ip_address] returns a boolean without
    touching the outside world, true exactly for the strings the address
    parser accepts, and then the one external call of [is_online] is
    [ping -c 1 -W 1 target]; for every other string no echo probe is made
    and the target goes to the URL branch.  But the URL branch makes its
    HTTP GET only when [urlparse] accepts the string: "http://[" is not an
    address, [urlparse] raises on it before the [try], and [is_online]
    raises with no GET made, even where a GET would be answered 200. *)
Theorem classification_and_missing_get :
  (forall (target : string) e h,
      match ip_address e target with
      | Some _ =>
          _is_ip_address target e h = (Return true, [])
          /\ exists a,
              snd (is_online target e h)
              = [Ev (Subprocess_call ["ping"; "-c"; "1"; "-W"; "1"; target]) a]
      | None =>
          _is_ip_address target e h = (Return false, [])
          /\ count is_echo_probe (snd (is_online target e h)) = 0%nat
          /\ match urlparse e target with
             | Ok p =>
                 exists a,
                   snd (is_online target e h)
                   = [Ev (Requests_get
                            (if (scheme p =? "")%string
                             then ("http://" ++ target)%string else target) 1) a]
             | Err x => is_online target e h = (Raise x, [])
             end
      end)
  /\ ip_address (scripted [] [Ok 200%Z]) "http://[" = None
  /\ urlparse (scripted [] [Ok 200%Z]) "http://["
     = Err (ValueError "Invalid IPv6 URL")
  /\ _is_ip_address "http://[" (scripted [] [Ok 200%Z]) [] = (Return false, [])
  /\ is_online "http://[" (scripted [] [Ok 200%Z]) []
     = (Raise (ValueError "Invalid IPv6 URL"), [])
  /\ count is_http_probe (snd (is_online "http://[" (scripted [] [Ok 200%Z]) []))
     = 0%nat.
Proof.
  split; [|repeat split].
  intros target e h.
  rewrite is_online_run. unfold _is_ip_address, ping_command, probe_url.
  destruct (ip_address e target).
  - split; [reflexivity|]. cbv zeta.
    destruct (respond e h _); simpl; eauto.
  - split; [reflexivity|].
    destruct (urlparse e target) as [p|x]; [|now split].
    cbv zeta.
    destruct (respond e h _) as [st|x]; [simpl; now eauto|].
    destruct (isinstance_RequestException x); simpl; now eauto.
Qed.

Example classify_examples :
  _is_ip_address "192.168.23.22" no_ping [] = (Return true, [])
  /\ _is_ip_address "openwebui.illerit.de" no_ping [] = (Return false, [])
  /\ _is_ip_address "" no_ping [] = (Return false, []).
Proof. repeat split. Qed.



(** ** The wake-and-wait handler *)

(** The handler as its three phases: wake, wait for T1, wait for T2. *)
Lemma api_log_redirect_run (g : globals) (fuel : nat) e h :
  api_log_redirect g fuel e h =
  let W := wake_on_lan (AI_SERVER_MAC g) e h in
  match fst W with
  | Return _ =>
      let L1 := while fuel (not_online T1) waiting_for_server e (h ++ snd W) in
      match fst L1 with
      | Return _ =>
          let L2 := while fuel (not_online T2) waiting_for_web_ui e
                          ((h ++ snd W) ++ snd L1) in
          (match fst L2 with
           | Return _ => Return ok_logged
           | Raise x => Raise x
           | Pending => Pending
           end, snd W ++ snd L1 ++ snd L2)
      | Raise x => (Raise x, snd W ++ snd L1)
      | Pending => (Pending, snd W ++ snd L1)
      end
  | Raise x => (Raise x, snd W)
  | Pending => (Pending, snd W)
  end.
Proof.
  unfold api_log_redirect. cbv zeta. rewrite bind_run.
  destruct (wake_on_lan (AI_SERVER_MAC g) e h) as [[u|x|] w]; simpl; trivial.
  rewrite bind_run.
  destruct (while fuel (not_online T1) waiting_for_server e (h ++ w))
    as [[u1|x|] l1]; simpl; trivial.
  rewrite bind_run.
  destruct (while fuel (not_online T2) waiting_for_web_ui e ((h ++ w) ++ l1))
    as [[u2|x|] l2]; simpl; trivial.
  now rewrite app_nil_r.
Qed.

Lemma probe_is_not_send (ev : event) : is_probe ev = true -> is_send ev = false.
Proof. destruct ev as [[] a]; simpl; congruence. Qed.

Lemma probe_is_not_delay (ev : event) : is_probe ev = true -> is_delay ev = false.
Proof. destruct ev as [[] a]; simpl; congruence. Qed.

Lemma probes_target_is_probe (t : string) (ev : event) :
  probes_target t ev = true -> is_probe ev = true.
Proof. destruct ev as [[] a]; simpl; congruence. Qed.

(** T1 and T2 are told apart by every probe. *)
Lemma probes_T1_not_T2 (ev : event) :
  probes_target T1 ev = true -> probes_target T2 ev = false.
Proof.
  destruct ev as [[] a]; simpl; try congruence.
  - destruct (list_eq_dec string_dec argv (ping_command T1)) as [->|];
      [reflexivity | discriminate].
  - intros H. apply orb_true_iff in H as [H|H];
      apply String.eqb_eq in H; subst url; reflexivity.
Qed.

(** A polling loop probes only its own target, sends nothing, and returns
    only right after a probe that found the target reachable. *)
Lemma poll_loop_trace (target : string) (body : M unit) (d : trace) e :
  (forall h, body e h = (Return tt, d)) ->
  Forall (fun ev => is_probe ev = false /\ is_send ev = false) d ->
  forall fuel h,
    Forall (polls_only target) (snd (while fuel (not_online target) body e h))
    /\ (fst (while fuel (not_online target) body e h) = Return tt ->
        exists q ev,
          snd (while fuel (not_online target) body e h) = q ++ [ev]
          /\ probes_target target ev = true
          /\ probe_succeeded ev = true).
Proof.
  intros Hbody Hd.
  assert (Hd' : Forall (polls_only target) d).
  { eapply Forall_impl; [|exact Hd]. intros ev [Hp Hs]. split; congruence. }
  induction fuel as [|n IH]; intros h.
  - simpl. split; [constructor | discriminate].
  - rewrite (while_not_online_step n target body d e h Hbody).
    pose proof (is_online_probed target e h) as P.
    destruct (is_online target e h) as [[b|x|] t]; simpl in P.
    + inversion P as [ev Hprobe Htarget Hb Ht| |]; subst t b.
      assert (Hev : polls_only target ev).
      { split; [trivial | now apply probe_is_not_send]. }
      destruct (probe_succeeded ev) eqn:Hok; simpl.
      * split; [constructor; [exact Hev | constructor]|].
        intros _. exists [], ev. now repeat split.
      * destruct (IH ((h ++ [ev]) ++ d)) as [Hall Hret].
        split.
        -- constructor; [exact Hev|]. apply Forall_app. now split.
        -- intros Hr. destruct (Hret Hr) as (q & ev' & Hq & Ht' & Hs').
           exists (ev :: d ++ q), ev'. rewrite Hq.
           repeat split; trivial.
           simpl. now rewrite app_assoc.
    + split; [|discriminate]. simpl.
      inversion P as [|ev x' Hprobe Htarget Hfail|]; subst; constructor;
        [split; [trivial | now apply probe_is_not_send] | constructor].
    + inversion P.
Qed.

Lemma delay_events_quiet (msg : string) :
  Forall (fun ev => is_probe ev = false /\ is_send ev = false)
         [Ev (Time_sleep 1) (Ok 0%Z); Ev (Stdout_print msg) (Ok 0%Z)].
Proof. repeat constructor. Qed.

Lemma count_zero_Forall (p : event -> bool) (t : trace) :
  count p t = 0%nat <-> Forall (fun ev => p ev = false) t.
Proof.
  unfold count. induction t as [|ev t IH]; simpl.
  - split; [constructor | reflexivity].
  - destruct (p ev) eqn:E; simpl.
    + split; [discriminate|]. intros H. inversion H; congruence.
    + rewrite IH. split; [now constructor|]. intros H. now inversion H.
Qed.

(** ** Claims about the wake-and-wait handler *)

(** C8: when the wake signaler fails at the start of the wake-and-wait
    handler (with the ValueError of an invalid address, or with anything
    else), the handler fails with the same exception at once: its trace is
    the signaler's, and no probe is made, however long it might have
    polled. *)
Theorem wake_failure_is_terminal (g : globals) (fuel : nat) e h (x : exn) :
  fst (wake_on_lan (AI_SERVER_MAC g) e h) = Raise x ->
  fst (api_log_redirect g fuel e h) = Raise x
  /\ snd (api_log_redirect g fuel e h) = snd (wake_on_lan (AI_SERVER_MAC g) e h)
  /\ count is_probe (snd (api_log_redirect g fuel e h)) = 0%nat.
Proof.
  intros H.
  assert (E : api_log_redirect g fuel e h
              = (Raise x, snd (wake_on_lan (AI_SERVER_MAC g) e h))).
  { rewrite api_log_redirect_run. cbv zeta. now rewrite H. }
  rewrite E. simpl. repeat split.
  apply wake_on_lan_phase.
Qed.

Lemma wake_failure_is_terminal_witness :
  api_log_redirect {| AI_SERVER_MAC := "AA:BB:CC" |} 7
                   (scripted [Ok 0%Z] [Ok 200%Z]) []
  = (Raise (ValueError "MAC address should be 12 hexadecimal digits"), []).
Proof.
  destruct (wake_failure_is_terminal
              {| AI_SERVER_MAC := "AA:BB:CC" |} 7
              (scripted [Ok 0%Z] [Ok 200%Z]) []
              (ValueError "MAC address should be 12 hexadecimal digits")
              eq_refl) as (Ho & Ht & _).
  rewrite (surjective_pairing (api_log_redirect _ _ _ _)).
  rewrite Ho, Ht. reflexivity.
Defined.

(** Every execution of the handler, also one cut short by an exception or
    still polling, splits into a wake phase, a phase for T1 and a phase
    for T2, in this order. *)
Lemma api_log_redirect_phases (g : globals) (fuel : nat) e h :
  exists w p1 p2,
    snd (api_log_redirect g fuel e h) = w ++ p1 ++ p2
    /\ count is_probe w = 0%nat
    /\ (count is_send w <= 1)%nat
    /\ (p1 ++ p2 <> [] ->
        exists pkt n,
          magic_packet (normalize_mac (AI_SERVER_MAC g)) = Some pkt
          /\ filter is_send w = [Ev (Sendto pkt "<broadcast>" 9) (Ok n)])
    /\ Forall (polls_only T1) p1
    /\ Forall (polls_only T2) p2
    /\ (p2 <> [] ->
        exists q ev,
          p1 = q ++ [ev]
          /\ probes_target T1 ev = true
          /\ probe_succeeded ev = true).
Proof.
  rewrite api_log_redirect_run. cbv zeta.
  destruct (wake_on_lan_phase (AI_SERVER_MAC g) e h) as (Hnp & Hle & _ & Hsent).
  set (w := snd (wake_on_lan (AI_SERVER_MAC g) e h)) in *.
  destruct (fst (wake_on_lan (AI_SERVER_MAC g) e h)) as [[]|x|].
  2, 3: exists w, [], []; simpl; rewrite app_nil_r;
        repeat split; trivial; try constructor; congruence.
  specialize (Hsent eq_refl).
  destruct (poll_loop_trace T1 waiting_for_server _ e
              (waiting_for_server_run e) (delay_events_quiet _) fuel (h ++ w))
    as [Hp1 Hret1].
  set (p1 := snd (while fuel (not_online T1) waiting_for_server e (h ++ w))) in *.
  destruct (fst (while fuel (not_online T1) waiting_for_server e (h ++ w)))
    as [[]|x|].
  2, 3: exists w, p1, []; simpl; rewrite app_nil_r;
        repeat split; trivial; try constructor; congruence.
  specialize (Hret1 eq_refl).
  destruct (poll_loop_trace T2 waiting_for_web_ui _ e
              (waiting_for_web_ui_run e) (delay_events_quiet _) fuel
              ((h ++ w) ++ p1))
    as [Hp2 _].
  set (p2 := snd (while fuel (not_online T2) waiting_for_web_ui e
                        ((h ++ w) ++ p1))) in *.
  exists w, p1, p2. simpl. repeat split; trivial.
Qed.

(** An occurrence of an event that a prefix cannot contain lies after it. *)
Lemma occurrence_after_prefix (P : event -> bool) (l1 : trace) :
  forall l2 pre ev post,
    Forall (fun x => P x = false) l1 ->
    P ev = true ->
    l1 ++ l2 = pre ++ ev :: post ->
    exists pre', pre = l1 ++ pre' /\ l2 = pre' ++ ev :: post.
Proof.
  induction l1 as [|a l1 IH]; intros l2 pre ev post Hall Hev Heq.
  - exists pre. now split.
  - inversion Hall as [|a' l' Ha Hl1]; subst.
    destruct pre as [|b pre]; simpl in Heq; injection Heq as -> Heq.
    + congruence.
    + destruct (IH _ _ _ _ Hl1 Hev Heq) as (pre' & -> & ->).
      exists pre'. now split.
Qed.

Lemma filter_quiet (P : event -> bool) (t : trace) :
  Forall (fun x => P x = false) t -> filter P t = [].
Proof.
  induction 1 as [|x t Hx _ IH]; simpl; [reflexivity|]. now rewrite Hx.
Qed.

Lemma polls_only_not_other (ev : event) :
  (polls_only T1 ev -> probes_target T2 ev = false)
  /\ (polls_only T2 ev -> probes_target T1 ev = false).
Proof.
  split; intros [H _].
  - destruct (probes_target T2 ev) eqn:E; [|reflexivity].
    pose proof (H (probes_target_is_probe _ _ E)) as H1.
    apply probes_T1_not_T2 in H1. congruence.
  - destruct (probes_target T1 ev) eqn:E; [|reflexivity].
    pose proof (H (probes_target_is_probe _ _ E)) as H2.
    apply probes_T1_not_T2 in E. congruence.
Qed.

(** C3: in every execution of the wake-and-wait handler, also one that is
    cut short by an exception or is still polling, take any probe in the
    trace.  Before it the magic packet has been sent exactly once, and
    nothing is sent from it on; it is a probe of T1 or of T2; and when it
    is a probe of T2, a probe that reported T1 reachable precedes it and no
    probe of T1 follows it. *)
Theorem orchestration_order (g : globals) (fuel : nat) e h
        (pre : trace) (ev : event) (post : trace) :
  snd (api_log_redirect g fuel e h) = pre ++ ev :: post ->
  is_probe ev = true ->
  (exists pkt n,
      magic_packet (normalize_mac (AI_SERVER_MAC g)) = Some pkt
      /\ filter is_send pre = [Ev (Sendto pkt "<broadcast>" 9) (Ok n)])
  /\ filter is_send (ev :: post) = []
  /\ (probes_target T1 ev = true \/ probes_target T2 ev = true)
  /\ (probes_target T2 ev = true ->
      (exists ev1,
          In ev1 pre
          /\ probes_target T1 ev1 = true
          /\ probe_succeeded ev1 = true)
      /\ Forall (fun ev' => probes_target T1 ev' = false) post).
Proof.
  intros Htr Hprobe.
  destruct (api_log_redirect_phases g fuel e h)
    as (w & p1 & p2 & Hsplit & Hwq & _ & Hsent & Hp1 & Hp2 & Hgate).
  rewrite Hsplit in Htr.
  apply count_zero_Forall in Hwq.
  destruct (occurrence_after_prefix is_probe w _ _ _ _ Hwq Hprobe Htr)
    as (pre' & -> & Hrest).
  assert (Hpolls : Forall (fun x => is_send x = false) (p1 ++ p2)).
  { apply Forall_app. split; (eapply Forall_impl; [|eassumption]);
      now intros x [_ Hx]. }
  rewrite Hrest in Hpolls. apply Forall_app in Hpolls as [Hpre' Hpost].
  destruct Hsent as (pkt & n & Hpkt & Hsend).
  { rewrite Hrest. now destruct pre'. }
  split; [|split; [|split]].
  - exists pkt, n. split; [exact Hpkt|].
    now rewrite filter_app, Hsend, (filter_quiet _ _ Hpre').
  - now apply filter_quiet.
  - assert (Hin : In ev (p1 ++ p2)).
    { rewrite Hrest. apply in_or_app. right. now left. }
    apply in_app_or in Hin as [Hin|Hin].
    + left. eapply Forall_forall in Hp1; [|exact Hin]. now apply Hp1.
    + right. eapply Forall_forall in Hp2; [|exact Hin]. now apply Hp2.
  - intros HT2.
    assert (Hno : Forall (fun x => probes_target T2 x = false) p1).
    { eapply Forall_impl; [|exact Hp1]. intros x. apply polls_only_not_other. }
    destruct (occurrence_after_prefix (probes_target T2) p1 _ _ _ _ Hno HT2 Hrest)
      as (pre2 & -> & Hp2eq).
    destruct Hgate as (q & ev1 & -> & HT1 & Hok).
    { rewrite Hp2eq. now destruct pre2. }
    split.
    + exists ev1. repeat split; trivial.
      apply in_or_app. right. apply in_or_app. left.
      apply in_or_app. right. now left.
    + rewrite Hp2eq in Hp2. apply Forall_app in Hp2 as [_ Hp2].
      inversion Hp2 as [|x l _ Hpost2]; subst.
      eapply Forall_impl; [|exact Hpost2]. intros x. apply polls_only_not_other.
Qed.

Lemma orchestration_order_witness :
  let e := scripted [Ok 1%Z; Ok 0%Z] [Ok 503%Z; Ok 200%Z] in
  let tr := snd (api_log_redirect server_globals 5 e []) in
  exists pre ev post,
    tr = pre ++ ev :: post
    /\ ev = Ev (Requests_get "http://openwebui.illerit.de" 1) (Ok 503%Z)
    /\ List.length (filter is_send pre) = 1%nat
    /\ (exists ev1,
           In ev1 pre
           /\ probes_target T1 ev1 = true
           /\ probe_succeeded ev1 = true)
    /\ Forall (fun ev' => probes_target T1 ev' = false) post.
Proof.
  intros e tr.
  pose (ping := fun rc => Ev (Subprocess_call (ping_command T1)) (Ok rc)).
  pose (pre := firstn 5 tr ++ [ping 1%Z] ++ firstn 2 (skipn 6 tr) ++ [ping 0%Z]).
  pose (ev := Ev (Requests_get "http://openwebui.illerit.de" 1) (Ok 503%Z)).
  pose (post := skipn 10 tr).
  destruct (orchestration_order server_globals 5 e [] pre ev post eq_refl eq_refl)
    as ((pkt & n & _ & Hsend) & _ & _ & Hgate).
  exists pre, ev, post.
  split; [reflexivity|]. split; [reflexivity|].
  split; [now rewrite Hsend|].
  exact (Hgate eq_refl).
Defined.

Lemma is_online_single (target : string) e h (b : bool) :
  fst (is_online target e h) = Return b ->
  exists ev,
    is_online target e h = (Return b, [ev])
    /\ probes_target target ev = true
    /\ probe_succeeded ev = b.
Proof.
  intros H. pose proof (is_online_probed target e h) as P.
  destruct (is_online target e h) as [o t]. simpl in H, P. subst o.
  inversion P as [ev Hprobe Htarget Hb Ht| |].
  exists ev. now repeat split.
Qed.

Lemma wake_on_lan_no_delay (mac : string) e h :
  count is_delay (snd (wake_on_lan mac e h)) = 0%nat.
Proof. wake_cases mac e h; reflexivity. Qed.

Lemma count_probes_target_quiet (t : string) (w : trace) :
  count is_probe w = 0%nat -> count (probes_target t) w = 0%nat.
Proof.
  rewrite !count_zero_Forall. apply Forall_impl. intros ev H.
  destruct (probes_target t ev) eqn:E; [|reflexivity].
  apply probes_target_is_probe in E. congruence.
Qed.

Lemma count_cons (p : event -> bool) (ev : event) (t : trace) :
  count p (ev :: t) = ((if p ev then 1 else 0) + count p t)%nat.
Proof. unfold count. simpl. now destruct (p ev). Qed.

(** C2, as the code has it: when the prober answers false, false, true for
    T1 and then true for T2, the handler probes T1 exactly three times,
    sleeping after each of the two failed attempts, then probes T2 exactly
    once, and returns its 200 response; the successful probe of T2 is the
    last event. *)
Theorem three_attempts_two_delays (g : globals) (fuel : nat) e (w : trace) :
  let delay := [Ev (Time_sleep 1) (Ok 0%Z);
                Ev (Stdout_print "Waiting for AI server to come online...") (Ok 0%Z)] in
  let a1 := is_online T1 e w in
  let a2 := is_online T1 e (w ++ snd a1 ++ delay) in
  let a3 := is_online T1 e (w ++ snd a1 ++ delay ++ snd a2 ++ delay) in
  let b1 := is_online T2 e (w ++ snd a1 ++ delay ++ snd a2 ++ delay ++ snd a3) in
  let r := api_log_redirect g fuel e [] in
  wake_on_lan (AI_SERVER_MAC g) e [] = (Return tt, w) ->
  fst a1 = Return false ->
  fst a2 = Return false ->
  fst a3 = Return true ->
  fst b1 = Return true ->
  (3 <= fuel)%nat ->
  fst r = Return ok_logged
  /\ snd r = w ++ snd a1 ++ delay ++ snd a2 ++ delay ++ snd a3 ++ snd b1
  /\ count (probes_target T1) (snd r) = 3%nat
  /\ count is_delay (snd r) = 2%nat
  /\ count (probes_target T2) (snd r) = 1%nat
  /\ exists q ev,
      snd r = q ++ [ev]
      /\ probes_target T2 ev = true
      /\ probe_succeeded ev = true.
Proof.
  intros delay. cbv zeta. intros Hw H1.
  destruct (is_online_single _ _ _ _ H1) as (e1 & E1 & Ht1 & Hs1).
  rewrite E1. cbn [snd]. intros H2.
  destruct (is_online_single _ _ _ _ H2) as (e2 & E2 & Ht2 & Hs2).
  rewrite E2. cbn [snd]. intros H3.
  destruct (is_online_single _ _ _ _ H3) as (e3 & E3 & Ht3 & Hs3).
  rewrite E3. cbn [snd]. intros H4.
  destruct (is_online_single _ _ _ _ H4) as (e4 & E4 & Ht4 & Hs4).
  rewrite E4. cbn [snd]. intros Hfuel.
  set (r := api_log_redirect g fuel e []).
  assert (Hr : r = (Return ok_logged,
                    w ++ [e1] ++ delay ++ [e2] ++ delay ++ [e3] ++ [e4])).
  { subst r. destruct fuel as [|[|[|n]]]; try lia.
    assert (L1 : while (S (S (S n))) (not_online T1) waiting_for_server e w
                 = (Return tt, [e1] ++ delay ++ [e2] ++ delay ++ [e3])).
    { rewrite (while_not_online_step _ T1 _ delay e _ (waiting_for_server_run e)).
      rewrite E1.
      replace ((w ++ [e1]) ++ delay) with (w ++ [e1] ++ delay)
        by now rewrite app_assoc.
      rewrite (while_not_online_step _ T1 _ delay e _ (waiting_for_server_run e)).
      rewrite E2.
      replace ((((w ++ [e1] ++ delay) ++ [e2]) ++ delay))
        with (w ++ [e1] ++ delay ++ [e2] ++ delay)
        by now rewrite <- !app_assoc.
      rewrite (while_not_online_step _ T1 _ delay e _ (waiting_for_server_run e)).
      rewrite E3. reflexivity. }
    assert (L2 : while (S (S (S n))) (not_online T2) waiting_for_web_ui e
                       (w ++ [e1] ++ delay ++ [e2] ++ delay ++ [e3])
                 = (Return tt, [e4])).
    { rewrite (while_not_online_step _ T2 _ _ e _ (waiting_for_web_ui_run e)).
      now rewrite E4. }
    rewrite api_log_redirect_run, Hw. cbv zeta. cbn [fst snd].
    change ([] ++ w) with w. rewrite L1. cbn [fst snd].
    rewrite L2. cbn [fst snd].
    now rewrite <- !app_assoc. }
  rewrite Hr. cbn [fst snd].
  assert (Hquiet : count is_probe w = 0%nat /\ count is_delay w = 0%nat).
  { pose proof (wake_on_lan_phase (AI_SERVER_MAC g) e []) as (Hp & _).
    pose proof (wake_on_lan_no_delay (AI_SERVER_MAC g) e []) as Hd.
    rewrite Hw in Hp, Hd. now split. }
  destruct Hquiet as [Hwp Hwd].
  pose proof (probes_target_is_probe _ _ Ht1) as P1.
  pose proof (probes_target_is_probe _ _ Ht2) as P2.
  pose proof (probes_target_is_probe _ _ Ht3) as P3.
  pose proof (probes_target_is_probe _ _ Ht4) as P4.
  split; [reflexivity|]. split; [reflexivity|].
  split; [|split; [|split]].
  - rewrite count_app, (count_probes_target_quiet T1 w Hwp).
    simpl app. rewrite !count_cons, Ht1, Ht2, Ht3.
    destruct (probes_target T1 e4) eqn:E; [|reflexivity].
    apply probes_T1_not_T2 in E. congruence.
  - rewrite count_app, Hwd. simpl app. rewrite !count_cons.
    rewrite (probe_is_not_delay _ P1), (probe_is_not_delay _ P2),
      (probe_is_not_delay _ P3), (probe_is_not_delay _ P4).
    reflexivity.
  - rewrite count_app, (count_probes_target_quiet T2 w Hwp).
    simpl app. rewrite !count_cons.
    rewrite (probes_T1_not_T2 _ Ht1), (probes_T1_not_T2 _ Ht2),
      (probes_T1_not_T2 _ Ht3), Ht4.
    reflexivity.
  - exists (w ++ [e1] ++ delay ++ [e2] ++ delay ++ [e3]), e4.
    repeat split; trivial.
    now rewrite <- !app_assoc.
Qed.

Lemma three_attempts_two_delays_witness :
  let e := scripted [Ok 1%Z; Ok 1%Z; Ok 0%Z] [Ok 200%Z] in
  let r := api_log_redirect server_globals 3 e [] in
  fst r = Return ok_logged
  /\ count (probes_target T1) (snd r) = 3%nat
  /\ count is_delay (snd r) = 2%nat
  /\ count (probes_target T2) (snd r) = 1%nat.
Proof.
  intros e r.
  destruct (three_attempts_two_delays
              server_globals 3 e
              (snd (wake_on_lan (AI_SERVER_MAC server_globals) e [])))
    as (Ho & _ & H1 & Hd & H2 & _).
  - vm_compute. reflexivity.
  - vm_compute. reflexivity.
  - vm_compute. reflexivity.
  - vm_compute. reflexivity.
  - vm_compute. reflexivity.
  - lia.
  - repeat split; assumption.
Defined.

(** C2, as worded, fails: with ping exit statuses 1, 1, 0 for T1 and HTTP
    200 for T2 the prober's results are false, false, true and then true,
    the handler returns, and T1 has been probed three times with two
    delays, not twice with one. *)
Lemma two_attempts_one_delay_counterexample :
  let e := scripted [Ok 1%Z; Ok 1%Z; Ok 0%Z] [Ok 200%Z] in
  let r := api_log_redirect server_globals 5 e [] in
  map probe_succeeded (filter (probes_target T1) (snd r)) = [false; false; true]
  /\ map probe_succeeded (filter (probes_target T2) (snd r)) = [true]
  /\ fst r = Return ok_logged
  /\ ~ (count (probes_target T1) (snd r) = 2%nat
        /\ count is_delay (snd r) = 1%nat).
Proof.
  vm_compute. repeat split. intros [H _]. discriminate H.
Qed.

(** ** Runs on concrete inputs *)

Example fromhex_ignores_whitespace :
  Py.bytes_fromhex "2Ef0 F1f2  " = Some [x2e; xf0; xf1; xf2]
  /\ Py.bytes_fromhex "2 E" = None
  /\ Py.bytes_fromhex "ABC" = None.
Proof. repeat split. Qed.

Example server_mac_packet :
  magic_packet (normalize_mac (AI_SERVER_MAC server_globals))
  = Some (repeat xff 6
          ++ concat (repeat [xd8; xcb; x8a; x40; x15; xe5] 16)).
Proof. reflexivity. Qed.

Example status_404 :
  api_web_ui_status "example.internal" (scripted [] [Ok 404%Z]) []
  = (Return {| body := [("online", JBool false)]; status := 200 |},
     [Ev (Requests_get "http://example.internal" 1) (Ok 404%Z)]).
Proof. reflexivity. Qed.

Example status_timeout :
  fst (api_web_ui_status "example.internal" (scripted [] []) [])
  = Return {| body := [("online", JBool false)]; status := 200 |}.
Proof. reflexivity. Qed.

Example start_ki_server_run :
  fst (api_start_ki_server server_globals (scripted [] []) []) = Return ok_logged
  /\ count is_send (snd (api_start_ki_server server_globals (scripted [] []) [])) = 1%nat
  /\ count is_probe (snd (api_start_ki_server server_globals (scripted [] []) [])) = 0%nat.
Proof. repeat split. Qed.

Example still_polling :
  fst (api_log_redirect server_globals 4 (scripted [] []) []) = Pending
  /\ count (probes_target T1) (snd (api_log_redirect server_globals 4 (scripted [] []) [])) = 4%nat
  /\ count (probes_target T2) (snd (api_log_redirect server_globals 4 (scripted [] []) [])) = 0%nat.
Proof. repeat split. Qed.

(** * Further properties *)

(** ** The wake signaler *)

(** X1: normalization removes exactly the separators ':' and '-' and keeps
    every other character in place; so its result contains no separator,
    is never longer than the input, and normalizing again changes
    nothing. *)
Theorem normalize_mac_filters (mac : string) :
  list_ascii_of_string (normalize_mac mac)
  = filter (fun c => negb (is_separator c)) (list_ascii_of_string mac)
  /\ Py.str_existsb is_separator (normalize_mac mac) = false
  /\ (String.length (normalize_mac mac) <= String.length mac)%nat
  /\ normalize_mac (normalize_mac mac) = normalize_mac mac.
Proof.
  assert (Hfilter : forall s,
             list_ascii_of_string (normalize_mac s)
             = filter (fun c => negb (is_separator c)) (list_ascii_of_string s)).
  { unfold normalize_mac, is_separator.
    induction s as [|c r IH]; [reflexivity|]. simpl.
    destruct (Ascii.eqb c ":") eqn:E1; simpl; [exact IH|].
    destruct (Ascii.eqb c "-") eqn:E2; simpl; [exact IH|].
    now rewrite IH. }
  assert (Hnone : forall s, Py.str_existsb is_separator (normalize_mac s) = false).
  { unfold normalize_mac, is_separator.
    induction s as [|c r IH]; [reflexivity|]. simpl.
    destruct (Ascii.eqb c ":") eqn:E1; simpl; [exact IH|].
    destruct (Ascii.eqb c "-") eqn:E2; simpl; [exact IH|].
    now rewrite E1, E2, IH. }
  assert (Hfix : forall s, Py.str_existsb is_separator s = false ->
                           normalize_mac s = s).
  { unfold normalize_mac, is_separator.
    induction s as [|c r IH]; [reflexivity|]. simpl. intros H.
    apply orb_false_iff in H as [Hc Hr]. apply orb_false_iff in Hc as [E1 E2].
    rewrite E1. simpl. rewrite E2. now rewrite (IH Hr). }
  repeat split.
  - apply Hfilter.
  - apply Hnone.
  - unfold normalize_mac.
    induction mac as [|c r IH]; [simpl; lia|]. simpl.
    destruct (Ascii.eqb c ":"); simpl; [lia|].
    destruct (Ascii.eqb c "-"); simpl; lia.
  - apply Hfix, Hnone.
Qed.

(** X2: the socket of [wake_on_lan] is scoped: a socket is opened at most
    once, it is closed exactly when it was opened, whether or not
    [setsockopt] and [sendto] raised, and the close comes after the send. *)
Theorem wake_on_lan_socket_scoped (mac : string) e h :
  (count is_socket_open (snd (wake_on_lan mac e h)) <= 1)%nat
  /\ count is_close (snd (wake_on_lan mac e h))
     = count opened_socket (snd (wake_on_lan mac e h))
  /\ match filter (fun ev => is_send ev || is_close ev)
                  (snd (wake_on_lan mac e h)) with
     | [] => count opened_socket (snd (wake_on_lan mac e h)) = 0%nat
     | [c] => is_close c = true
     | [s; c] => is_send s = true /\ is_close c = true
     | _ => False
     end.
Proof.
  wake_cases mac e h; unfold count; simpl; repeat split; lia.
Qed.

(** X3: [wake_on_lan] returns normally exactly when its [sendto] was
    answered, and the confirmation line is printed in that case only, as
    the last thing it does. *)
Theorem wake_on_lan_confirms_after_send (mac : string) e h :
  (fst (wake_on_lan mac e h) = Return tt
   <-> exists data n,
        In (Ev (Sendto data "<broadcast>" 9) (Ok n)) (snd (wake_on_lan mac e h)))
  /\ (fst (wake_on_lan mac e h) = Return tt ->
      exists q,
        snd (wake_on_lan mac e h)
        = q ++ [Ev (Stdout_print ("Magic packet sent to " ++ normalize_mac mac)) (Ok 0%Z)]
        /\ count is_print q = 0%nat)
  /\ (fst (wake_on_lan mac e h) <> Return tt ->
      count is_print (snd (wake_on_lan mac e h)) = 0%nat).
Proof.
  wake_cases mac e h; simpl; (split; [split|split]);
    try (intros H; discriminate H);
    try (intros (d & m & H); pick_event H; discriminate H);
    try (intros H; exfalso; now apply H);
    try reflexivity.
  - intros _. exists data, n. simpl. auto.
  - intros _. eexists [_; _; _; _]. split; reflexivity.
Qed.

Lemma fromhex_scan_accepts (s : string) :
  forall p, Py.fromhex_from p s <> None <-> fromhex_scan p s = Some None.
Proof.
  induction s as [|c r IH]; intros p.
  - destruct p; simpl; split; congruence.
  - destruct p as [hi|]; simpl.
    + destruct (Py.hex_digit_value c) as [lo|]; [|split; congruence].
      rewrite <- IH. destruct (Py.fromhex_from None r); split; congruence.
    + destruct (Py.is_space c); [apply IH|].
      destruct (Py.hex_digit_value c) as [hi|]; [apply IH | split; congruence].
Qed.

Lemma fromhex_scan_app (a b : string) :
  forall p,
    fromhex_scan p (a ++ b)
    = match fromhex_scan p a with
      | Some q => fromhex_scan q b
      | None => None
      end.
Proof.
  induction a as [|c a IH]; intros p.
  - now destruct p.
  - destruct p as [hi|]; simpl.
    + destruct (Py.hex_digit_value c); [apply IH | reflexivity].
    + destruct (Py.is_space c); [apply IH|].
      destruct (Py.hex_digit_value c); [apply IH | reflexivity].
Qed.

(** A string that the decoder survives both from a byte boundary and from
    the middle of a byte consists of hexadecimal digits only. *)
Lemma fromhex_scan_both_alive (m : string) :
  forall d,
    fromhex_scan None m <> None ->
    fromhex_scan (Some d) m <> None ->
    Py.str_forallb Py.is_hex_digit m = true.
Proof.
  unfold Py.is_hex_digit.
  induction m as [|c r IH]; intros d HA HB; [reflexivity|].
  simpl in *.
  destruct (Py.hex_digit_value c) as [v|] eqn:Ev.
  - simpl. destruct (Py.is_space c) eqn:Es.
    + assert (Py.is_hex_digit c = true) as Hh by (unfold Py.is_hex_digit; now rewrite Ev).
      apply hex_digit_not_space in Hh. congruence.
    + now apply (IH v).
  - congruence.
Qed.

(** The packet can be built exactly when [bytes.fromhex] accepts the
    normalized address on its own (of even length, as 12 is). *)
Lemma magic_packet_accepts (m : string) (k : nat) :
  String.length m = (2 * k)%nat ->
  (magic_packet m <> None <-> Py.bytes_fromhex m <> None).
Proof.
  intros Hlen. split.
  - (* contrapositive: a rejected address is rejected inside the packet *)
    intros Hpkt Hm. apply Hpkt. clear Hpkt.
    unfold magic_packet, Py.bytes_fromhex in *.
    destruct (Py.fromhex_from None (Py.str_mul "FF" 6 ++ Py.str_mul m 16))
      eqn:E; [|reflexivity].
    exfalso.
    assert (Hs : fromhex_scan None (Py.str_mul "FF" 6 ++ Py.str_mul m 16) = Some None).
    { apply fromhex_scan_accepts. congruence. }
    assert (HF : fromhex_scan None (Py.str_mul "FF" 6) = Some None)
      by reflexivity.
    rewrite fromhex_scan_app, HF in Hs.
    change (Py.str_mul m 16) with (m ++ (m ++ Py.str_mul m 14))%string in Hs.
    rewrite fromhex_scan_app in Hs.
    destruct (fromhex_scan None m) as [[d|]|] eqn:Em; try discriminate.
    + rewrite fromhex_scan_app in Hs.
      destruct (fromhex_scan (Some d) m) as [q|] eqn:Ed; [|discriminate].
      assert (Hhex : Py.str_forallb Py.is_hex_digit m = true).
      { apply (fromhex_scan_both_alive m d); congruence. }
      destruct (bytes_fromhex_digits k m Hlen Hhex) as (bs & Hbs & _).
      unfold Py.bytes_fromhex in Hbs. congruence.
    + assert (Py.fromhex_from None m <> None) by now apply fromhex_scan_accepts.
      congruence.
  - intros Hm. destruct (Py.bytes_fromhex m) as [x|] eqn:Ex; [|congruence].
    unfold magic_packet.
    rewrite (bytes_fromhex_app _ _ (repeat xff 6) (concat (repeat x 16)));
      [discriminate | reflexivity | now apply bytes_fromhex_mul].
Qed.

(** X4: what the validation of [wake_on_lan] lets through.  The call
    raises a ValueError before any network activity exactly when the
    normalized address is not 12 characters long or [bytes.fromhex] does not
    accept it on its own; a character that is neither a hexadecimal digit
    nor ASCII whitespace is enough for that; and in every other case the
    call goes on to the network: its trace begins with the creation of the
    socket. *)
Theorem wake_on_lan_validation (mac : string) e h :
  ((String.length (normalize_mac mac) <> 12%nat
    \/ Py.bytes_fromhex (normalize_mac mac) = None)
   <-> (snd (wake_on_lan mac e h) = []
        /\ exists msg, fst (wake_on_lan mac e h) = Raise (ValueError msg)))
  /\ (Py.str_existsb (fun c => negb (Py.is_hex_digit c) && negb (Py.is_space c))
                     (normalize_mac mac) = true ->
      Py.bytes_fromhex (normalize_mac mac) = None)
  /\ (String.length (normalize_mac mac) = 12%nat ->
      Py.bytes_fromhex (normalize_mac mac) <> None ->
      exists a q,
        snd (wake_on_lan mac e h) = Ev Socket_socket a :: q
        /\ a = respond e h Socket_socket).
Proof.
  split; [|split].
  - split.
    + intros [Hlen | Hhex].
      * rewrite wake_on_lan_invalid_length by assumption.
        split; [reflexivity | eexists; reflexivity].
      * destruct (Nat.eq_dec (String.length (normalize_mac mac)) 12) as [Hl|Hl].
        -- rewrite wake_on_lan_run. cbv zeta.
           apply Nat.eqb_eq in Hl as Hl'. rewrite Hl'. simpl negb. cbv iota.
           destruct (magic_packet (normalize_mac mac)) eqn:E.
           ++ exfalso.
              apply (proj1 (magic_packet_accepts _ 6 Hl)); congruence.
           ++ split; [reflexivity | eexists; reflexivity].
        -- rewrite wake_on_lan_invalid_length by assumption.
           split; [reflexivity | eexists; reflexivity].
    + wake_cases mac e h; simpl; intros [Htr [msg Hx]];
        try discriminate Htr.
      * left. apply negb_true_iff in Heqb. now apply Nat.eqb_neq.
      * right. apply negb_false_iff, Nat.eqb_eq in Heqb.
        destruct (Py.bytes_fromhex (normalize_mac mac)) eqn:E; [|reflexivity].
        exfalso.
        apply (proj2 (magic_packet_accepts _ 6 Heqb)); congruence.
  - intros Hbad. now apply fromhex_from_rejects.
  - intros Hlen Hhex.
    assert (Hpkt : magic_packet (normalize_mac mac) <> None)
      by now apply (proj2 (magic_packet_accepts _ 6 Hlen)).
    rewrite wake_on_lan_run. cbv zeta.
    apply Nat.eqb_eq in Hlen. rewrite Hlen. simpl negb. cbv iota.
    destruct (magic_packet (normalize_mac mac)) as [data|]; [|congruence].
    cbv zeta.
    destruct (respond e h Socket_socket) as [s|x];
      [|simpl; do 2 eexists; split; reflexivity].
    destruct (respond e (h ++ [Ev Socket_socket (Ok s)]) Setsockopt_broadcast)
      as [r|x]; [|simpl; do 2 eexists; split; reflexivity].
    destruct (respond e _ (Sendto data "<broadcast>" 9));
      simpl; do 2 eexists; split; reflexivity.
Qed.

(** ** The prober *)

(** X5: one call of [is_online] makes at most one external call, a probe
    of its target: it never retries, sleeps or sends; it always comes to
    an end, and when it returns a boolean this is what its single probe
    reported. *)
Theorem is_online_one_probe (target : string) e h :
  (List.length (snd (is_online target e h)) <= 1)%nat
  /\ Forall (fun ev => is_probe ev = true /\ probes_target target ev = true)
            (snd (is_online target e h))
  /\ fst (is_online target e h) <> Pending
  /\ forall b, fst (is_online target e h) = Return b ->
               exists ev, snd (is_online target e h) = [ev]
                          /\ probe_succeeded ev = b.
Proof.
  pose proof (is_online_probed target e h) as P.
  destruct (is_online target e h) as [o t]. simpl in *.
  inversion P as [ev Hp Ht Ho Htr | ev x Hp Ht Hf Ho Htr | x Ho Htr]; subst;
    simpl; repeat split; try lia; try discriminate;
    try (repeat constructor; assumption).
  - intros b Hb. injection Hb as <-. now exists ev.
Qed.

(** X6: for an address target the one external call is
    [ping -c 1 -W 1 target]; the result is true exactly when its exit
    status is 0, false for every other exit status, and an exception of the
    spawn is not caught. *)
Theorem address_probe (target : string) e h (v : ip_version) :
  ip_address e target = Some v ->
  let a := respond e h (Subprocess_call ["ping"; "-c"; "1"; "-W"; "1"; target]) in
  snd (is_online target e h)
  = [Ev (Subprocess_call ["ping"; "-c"; "1"; "-W"; "1"; target]) a]
  /\ (fst (is_online target e h) = Return true <-> a = Ok 0%Z)
  /\ (forall rc, a = Ok rc -> rc <> 0%Z ->
                 fst (is_online target e h) = Return false)
  /\ (forall x, a = Err x -> fst (is_online target e h) = Raise x).
Proof.
  intros Hip. cbv zeta. rewrite is_online_run, Hip. cbv zeta.
  unfold ping_command.
  destruct (respond e h _) as [rc|x]; simpl.
  - split; [reflexivity|]. split; [split|split].
    + intros H. injection H as H. apply Z.eqb_eq in H. now subst.
    + intros H. injection H as ->. reflexivity.
    + intros rc' H Hne. injection H as <-.
      apply Z.eqb_neq in Hne. now rewrite Hne.
    + discriminate.
  - split; [reflexivity|]. split; [split; discriminate|].
    split; [discriminate|]. intros x' H. now injection H as ->.
Qed.

Lemma address_probe_witness :
  is_online "192.168.23.1" (scripted [Ok 2%Z] []) []
  = (Return false,
     [Ev (Subprocess_call ["ping"; "-c"; "1"; "-W"; "1"; "192.168.23.1"]) (Ok 2%Z)]).
Proof.
  destruct (address_probe "192.168.23.1" (scripted [Ok 2%Z] []) [] IPv4 eq_refl)
    as (Htrace & _ & Hfalse & _).
  rewrite (surjective_pairing (is_online _ _ _)).
  rewrite Htrace, (Hfalse 2%Z eq_refl ltac:(discriminate)).
  reflexivity.
Defined.

(** X7: the status endpoint answers 200 with the prober's boolean whenever
    the process spawner does not raise, [urlparse] accepts the target and
    [requests.get] raises nothing but [requests.RequestException]; it then
    has made exactly one probe of the target, and it never sends a wake
    signal. *)
Theorem status_endpoint_answers (ip : string) e h :
  (forall argv, exists rc, respond e h (Subprocess_call argv) = Ok rc) ->
  (exists p, urlparse e ip = Ok p) ->
  (forall url x, respond e h (Requests_get url 1) = Err x ->
                 isinstance_RequestException x = true) ->
  exists ev,
    api_web_ui_status ip e h
    = (Return {| body := [("online", JBool (probe_succeeded ev))];
                 status := 200 |}, [ev])
    /\ probes_target ip ev = true
    /\ is_send ev = false.
Proof.
  intros Hspawn Hparse Hget.
  destruct (is_online_returns ip e h Hspawn Hparse Hget) as (b & ev & E).
  assert (Hfst : fst (is_online ip e h) = Return b) by now rewrite E.
  destruct (is_online_single ip e h b Hfst) as (ev' & E' & Ht & Hs).
  rewrite E in E'. injection E' as <-.
  exists ev. split; [|split].
  - unfold api_web_ui_status. rewrite bind_run, E. simpl. now rewrite Hs.
  - exact Ht.
  - apply probe_is_not_send. now apply (probes_target_is_probe ip).
Qed.

Lemma status_endpoint_answers_witness :
  exists ev,
    api_web_ui_status "example.internal" (scripted [] []) []
    = (Return {| body := [("online", JBool (probe_succeeded ev))];
                 status := 200 |}, [ev])
    /\ probes_target "example.internal" ev = true
    /\ is_send ev = false.
Proof.
  apply (status_endpoint_answers "example.internal" (scripted [] []) []).
  - intros argv. exists 1%Z. reflexivity.
  - eexists. reflexivity.
  - intros url x H. simpl in H. injection H as <-. reflexivity.
Defined.

(** ** The wake-and-wait handler *)

Lemma while_unfold (n : nat) (cond : M bool) (body : M unit) :
  while (S n) cond body
  = bind cond (fun b => if b then bind body (fun _ => while n cond body)
                        else ret tt).
Proof. reflexivity. Qed.

(** A loop that has come to an end within a budget does the same within
    any larger one. *)
Lemma while_fuel_mono (cond : M bool) (body : M unit) e :
  forall n h,
    fst (while n cond body e h) <> Pending ->
    forall k, while (n + k) cond body e h = while n cond body e h.
Proof.
  induction n as [|n IH]; intros h H k.
  - now contradiction H.
  - change (S n + k)%nat with (S (n + k)). rewrite !while_unfold in *.
    rewrite bind_run in H. rewrite !bind_run.
    destruct (cond e h) as [[[]|x|] t1]; trivial.
    rewrite bind_run in H. rewrite !bind_run.
    destruct (body e (h ++ t1)) as [[u|x|] t2]; trivial.
    rewrite IH; [reflexivity|].
    intros HP. apply H. simpl. now rewrite HP.
Qed.

(** Once the wake-and-wait handler has returned or raised within a budget
    of iterations, it gives the same outcome and the same trace within
    every larger one. *)
Lemma api_log_redirect_budget (g : globals) (n n' : nat) e h :
  fst (api_log_redirect g n e h) <> Pending ->
  (n <= n')%nat ->
  api_log_redirect g n' e h = api_log_redirect g n e h.
Proof.
  intros H Hle. replace n' with (n + (n' - n))%nat by lia.
  generalize (n' - n)%nat as k. intros k.
  rewrite !api_log_redirect_run in *. cbv zeta in *.
  destruct (fst (wake_on_lan (AI_SERVER_MAC g) e h)) as [u|x|]; trivial.
  set (h1 := (h ++ snd (wake_on_lan (AI_SERVER_MAC g) e h))%list) in *.
  assert (H1 : fst (while n (not_online T1) waiting_for_server e h1) <> Pending).
  { intros HP. rewrite HP in H. now apply H. }
  rewrite (while_fuel_mono _ _ e n h1 H1 k).
  destruct (fst (while n (not_online T1) waiting_for_server e h1)) as [u1|x|];
    trivial.
  set (h2 := (h1 ++ snd (while n (not_online T1) waiting_for_server e h1))%list) in *.
  assert (H2 : fst (while n (not_online T2) waiting_for_web_ui e h2) <> Pending).
  { intros HP. rewrite HP in H. now apply H. }
  now rewrite (while_fuel_mono _ _ e n h2 H2 k).
Qed.

(** Counting in one polling loop: when it returns, it has slept once less
    often than it has probed. *)
Lemma poll_loop_counts (target : string) (body : M unit) (d : trace) e :
  (forall h, body e h = (Return tt, d)) ->
  count is_probe d = 0%nat ->
  count is_delay d = 1%nat ->
  forall fuel h,
    fst (while fuel (not_online target) body e h) = Return tt ->
    count is_probe (snd (while fuel (not_online target) body e h))
    = S (count is_delay (snd (while fuel (not_online target) body e h))).
Proof.
  intros Hbody Hdp Hdd.
  induction fuel as [|n IH]; intros h; [discriminate|].
  rewrite (while_not_online_step n target body d e h Hbody).
  pose proof (is_online_probed target e h) as P.
  destruct (is_online target e h) as [[b|x|] t]; simpl in P; try discriminate.
  inversion P as [ev Hprobe Htarget Hb Ht| |]; subst t b.
  destruct (probe_succeeded ev); simpl.
  - intros _. rewrite !count_cons, Hprobe, (probe_is_not_delay _ Hprobe).
    reflexivity.
  - intros Hr. rewrite !count_cons, !count_app, Hprobe,
      (probe_is_not_delay _ Hprobe), Hdp, Hdd, (IH _ Hr).
    simpl. lia.
Qed.

(** X9: the handler answers only once both targets have been found
    reachable.  Whenever it returns, the response is the 200 of
    [ok_logged], the last event is a probe that found T2 reachable, a probe
    that found T1 reachable came before, and it has slept once after every
    probe except these two. *)
Theorem returns_after_both_reachable (g : globals) (fuel : nat) e h (r : response) :
  fst (api_log_redirect g fuel e h) = Return r ->
  r = ok_logged
  /\ (exists q ev,
         snd (api_log_redirect g fuel e h) = q ++ [ev]
         /\ probes_target T2 ev = true
         /\ probe_succeeded ev = true
         /\ exists ev1,
             In ev1 q
             /\ probes_target T1 ev1 = true
             /\ probe_succeeded ev1 = true)
  /\ count is_probe (snd (api_log_redirect g fuel e h))
     = (count is_delay (snd (api_log_redirect g fuel e h)) + 2)%nat.
Proof.
  rewrite api_log_redirect_run. cbv zeta.
  pose proof (wake_on_lan_phase (AI_SERVER_MAC g) e h) as (Hwp & _).
  pose proof (wake_on_lan_no_delay (AI_SERVER_MAC g) e h) as Hwd.
  set (w := snd (wake_on_lan (AI_SERVER_MAC g) e h)) in *.
  destruct (fst (wake_on_lan (AI_SERVER_MAC g) e h)) as [[]|x|];
    try discriminate.
  pose proof (poll_loop_trace T1 waiting_for_server _ e
                (waiting_for_server_run e) (delay_events_quiet _) fuel (h ++ w))
    as [_ Hret1].
  pose proof (poll_loop_counts T1 waiting_for_server _ e
                (waiting_for_server_run e) eq_refl eq_refl fuel (h ++ w))
    as Hc1.
  set (p1 := snd (while fuel (not_online T1) waiting_for_server e (h ++ w))) in *.
  destruct (fst (while fuel (not_online T1) waiting_for_server e (h ++ w)))
    as [[]|x|]; try discriminate.
  pose proof (poll_loop_trace T2 waiting_for_web_ui _ e
                (waiting_for_web_ui_run e) (delay_events_quiet _) fuel
                ((h ++ w) ++ p1))
    as [_ Hret2].
  pose proof (poll_loop_counts T2 waiting_for_web_ui _ e
                (waiting_for_web_ui_run e) eq_refl eq_refl fuel ((h ++ w) ++ p1))
    as Hc2.
  set (p2 := snd (while fuel (not_online T2) waiting_for_web_ui e
                        ((h ++ w) ++ p1))) in *.
  destruct (fst (while fuel (not_online T2) waiting_for_web_ui e
                       ((h ++ w) ++ p1)))
    as [[]|x|]; try discriminate.
  simpl. intros Hr. injection Hr as <-.
  destruct (Hret1 eq_refl) as (q1 & ev1 & Hp1 & Ht1 & Hs1).
  destruct (Hret2 eq_refl) as (q2 & ev2 & Hp2 & Ht2 & Hs2).
  split; [reflexivity|]. split.
  - exists (w ++ p1 ++ q2), ev2. rewrite Hp2. repeat split; trivial.
    + now rewrite <- !app_assoc.
    + exists ev1. repeat split; trivial.
      apply in_or_app. right. apply in_or_app. left.
      rewrite Hp1. apply in_or_app. right. now left.
  - rewrite !count_app, Hwp, Hwd, (Hc1 eq_refl), (Hc2 eq_refl). lia.
Qed.

Lemma returns_after_both_reachable_witness :
  let tr := snd (api_log_redirect server_globals 4
                   (scripted [Ok 1%Z; Ok 0%Z] [Ok 502%Z; Ok 200%Z]) []) in
  count is_probe tr = 4%nat /\ count is_delay tr = 2%nat.
Proof.
  intros tr.
  destruct (returns_after_both_reachable server_globals 4
              (scripted [Ok 1%Z; Ok 0%Z] [Ok 502%Z; Ok 200%Z]) [] ok_logged eq_refl)
    as (_ & _ & Hcount).
  fold tr in Hcount. split; [reflexivity|].
  change (count is_probe tr) with 4%nat in Hcount. lia.
Defined.

Lemma poll_never_online (body : M unit) (d : trace) e :
  (forall h, body e h = (Return tt, d)) ->
  count is_probe d = 0%nat ->
  count is_delay d = 1%nat ->
  (forall h, fst (is_online T1 e h) = Return false) ->
  forall fuel h,
    fst (while fuel (not_online T1) body e h) = Pending
    /\ count (probes_target T1) (snd (while fuel (not_online T1) body e h)) = fuel
    /\ count is_delay (snd (while fuel (not_online T1) body e h)) = fuel
    /\ count (probes_target T2) (snd (while fuel (not_online T1) body e h)) = 0%nat.
Proof.
  intros Hbody Hdp Hdd Hdown.
  assert (HdT : forall t, count (probes_target t) d = 0%nat)
    by (intros t; now apply count_probes_target_quiet).
  induction fuel as [|n IH]; intros h; [now repeat split|].
  rewrite (while_not_online_step n T1 body d e h Hbody).
  destruct (is_online_single T1 e h false (Hdown h)) as (ev & E & Ht & Hs).
  rewrite E. simpl.
  destruct (IH ((h ++ [ev]) ++ d)) as (Ho & H1 & Hd & H2).
  rewrite Ho, !count_cons, !count_app, H1, Hd, H2, !HdT, Hdd, Ht,
    (probes_T1_not_T2 _ Ht),
    (probe_is_not_delay _ (probes_target_is_probe _ _ Ht)).
  repeat split; simpl; lia.
Qed.

(** X10: the polling has no timeout of its own.  If the wake signal goes
    out and T1 never answers, then after any number of attempts the handler
    is still polling: it has probed T1 that many times, slept as often, and
    has not yet probed T2. *)
Theorem polls_without_bound (g : globals) (fuel : nat) e h :
  fst (wake_on_lan (AI_SERVER_MAC g) e h) = Return tt ->
  (forall h', fst (is_online T1 e h') = Return false) ->
  fst (api_log_redirect g fuel e h) = Pending
  /\ count (probes_target T1) (snd (api_log_redirect g fuel e h)) = fuel
  /\ count is_delay (snd (api_log_redirect g fuel e h)) = fuel
  /\ count (probes_target T2) (snd (api_log_redirect g fuel e h)) = 0%nat.
Proof.
  intros Hw Hdown. rewrite api_log_redirect_run. cbv zeta. rewrite Hw.
  pose proof (wake_on_lan_phase (AI_SERVER_MAC g) e h) as (Hwp & _).
  pose proof (wake_on_lan_no_delay (AI_SERVER_MAC g) e h) as Hwd.
  set (w := snd (wake_on_lan (AI_SERVER_MAC g) e h)) in *.
  destruct (poll_never_online waiting_for_server _ e
              (waiting_for_server_run e) eq_refl eq_refl Hdown fuel (h ++ w))
    as (Ho & H1 & Hd & H2).
  rewrite Ho. simpl.
  rewrite !count_app, H1, Hd, H2, Hwd,
    (count_probes_target_quiet T1 w Hwp), (count_probes_target_quiet T2 w Hwp).
  now repeat split.
Qed.

Lemma polls_without_bound_witness :
  fst (api_log_redirect server_globals 25 (scripted [] []) []) = Pending
  /\ count (probes_target T1)
           (snd (api_log_redirect server_globals 25 (scripted [] []) [])) = 25%nat.
Proof.
  destruct (polls_without_bound server_globals 25 (scripted [] []) [])
    as (Ho & H1 & _).
  - reflexivity.
  - intros h'. rewrite is_online_run. simpl.
    now destruct (count is_echo_probe h').
  - now split.
Defined.

(** X11: the wake-only endpoint with the address the module ships.  The
    address passes validation, so whatever the environment the handler
    starts by creating the socket; it never probes or sleeps; it answers
    the 200 of [ok_logged] exactly when the datagram was sent, and that
    datagram is six 0xFF and sixteen times D8 CB 8A 40 15 E5; and an
    exception of a socket call is not caught. *)
Theorem start_ki_server_wakes (e : environment) (h : trace) :
  let r := api_start_ki_server server_globals e h in
  let packet := repeat xff 6 ++ concat (repeat [xd8; xcb; x8a; x40; x15; xe5] 16) in
  (exists a q, snd r = Ev Socket_socket a :: q)
  /\ count is_probe (snd r) = 0%nat
  /\ count is_delay (snd r) = 0%nat
  /\ (fst r = Return ok_logged
      <-> exists n, In (Ev (Sendto packet "<broadcast>" 9) (Ok n)) (snd r))
  /\ (forall x, fst r = Raise x -> exists c, In (Ev c (Err x)) (snd r))
  /\ fst r <> Pending.
Proof.
  cbv zeta. unfold api_start_ki_server. rewrite bind_run.
  change (AI_SERVER_MAC server_globals) with "D8:CB:8A:40:15:E5".
  rewrite wake_on_lan_run. cbv zeta.
  change (normalize_mac "D8:CB:8A:40:15:E5") with "D8CB8A4015E5".
  change (negb (String.length "D8CB8A4015E5" =? 12)%nat) with false. cbv iota.
  change (magic_packet "D8CB8A4015E5")
    with (Some (repeat xff 6 ++ concat (repeat [xd8; xcb; x8a; x40; x15; xe5] 16))).
  cbv iota beta.
  set (packet := repeat xff 6 ++ concat (repeat [xd8; xcb; x8a; x40; x15; xe5] 16)).
  destruct (respond e h Socket_socket) as [s|x];
    [destruct (respond e (h ++ [Ev Socket_socket (Ok s)]) Setsockopt_broadcast)
       as [r0|x];
     [destruct (respond e _ (Sendto packet "<broadcast>" 9)) as [n|x]|]|];
    simpl; repeat split; eauto;
    try discriminate;
    try (intros _; eexists; simpl; repeat (first [left; reflexivity | right]));
    try (intros (n' & H); pick_event H; discriminate H);
    try (intros x' H; injection H as <-; eexists; simpl;
         repeat (first [left; reflexivity | right])).
Qed.

(** ** Dictionaries *)

Lemma py_key_eqb_str (k0 : pyval) (k : string) :
  py_key_eqb k0 (PStr k) = true <-> k0 = PStr k.
Proof.
  destruct k0; simpl; split; try congruence.
  - intros H. apply String.eqb_eq in H. now subst.
  - intros H. injection H as ->. apply String.eqb_refl.
Qed.

Lemma dict_get_set_same (d : pydict) (k : string) (v : pyval) :
  dict_getitem (dict_setitem d (PStr k) v) (PStr k) = Some v.
Proof.
  induction d as [|[k0 v0] r IH]; simpl.
  - now rewrite String.eqb_refl.
  - destruct (py_key_eqb k0 (PStr k)) eqn:E; simpl; rewrite E; trivial.
Qed.

Lemma dict_get_set_other (d : pydict) (k k' : string) (v : pyval) :
  k <> k' ->
  dict_getitem (dict_setitem d (PStr k) v) (PStr k') = dict_getitem d (PStr k').
Proof.
  intros Hne.
  induction d as [|[k0 v0] r IH]; simpl.
  - apply String.eqb_neq in Hne. now rewrite Hne.
  - destruct (py_key_eqb k0 (PStr k)) eqn:E; simpl.
    + apply py_key_eqb_str in E. subst k0. simpl.
      apply String.eqb_neq in Hne. now rewrite Hne.
    + now rewrite IH.
Qed.

Lemma dict_setitem_length (d : pydict) (k v : pyval) :
  List.length (dict_setitem d k v)
  = match dict_getitem d k with
    | Some _ => List.length d
    | None => S (List.length d)
    end.
Proof.
  induction d as [|[k0 v0] r IH]; simpl; [reflexivity|].
  destruct (py_key_eqb k0 k); simpl; [reflexivity|].
  rewrite IH. now destruct (dict_getitem r k).
Qed.

(** ** POST /maint *)







(** X14: a failed write of config.yaml is not an error of POST /maint.
    Whether the handler raises, and what it leaves in [runtime_state], do
    not depend on the fate of the write; and every response it returns is
    a 200 with status "ok" whose "maintenance" field is the flag the
    process holds after the call. *)
Theorem maint_write_failure_is_not_an_error
        (w : pyval -> write_outcome) (req : request) (s : server) :
  (forall x, fst (api_maint w req s) = Err x
             <-> fst (api_maint (fun _ => Written) req s) = Err x)
  /\ runtime_state (snd (api_maint w req s))
     = runtime_state (snd (api_maint (fun _ => Written) req s))
  /\ forall resp,
      fst (api_maint w req s) = Ok resp ->
      status resp = 200%Z
      /\ In ("status", JStr "ok") (body resp)
      /\ exists b,
          In ("maintenance", JBool b) (body resp)
          /\ maintenance_flag (snd (api_maint w req s)) = PBool b.
Proof.
  unfold api_maint. cbv zeta.
  destruct (load_config (config_file s)) as [c|x]; simpl;
    [|repeat split; trivial; discriminate].
  destruct (maint_new_state (maint_body req) _) as [b|x]; simpl;
    [|repeat split; trivial; discriminate].
  destruct (maint_update_buttons b c) as [c1|x]; simpl;
    [|repeat split; trivial; discriminate].
  destruct (maint_update_system b c1) as [c2|x]; simpl;
    [|repeat split; trivial; discriminate].
  assert (F : dict_get (dict_setitem (runtime_state s) (PStr "maintenance") (PBool b))
                       "maintenance" (PBool false) = PBool b).
  { unfold dict_get. now rewrite dict_get_set_same. }
  destruct (w c2) as [|x msg after]; simpl; repeat split; trivial;
    try discriminate;
    try (intros resp H; injection H as <-; simpl; auto);
    try (injection H as <-; simpl; auto);
    try (exists b; split; simpl; auto).
Qed.



Lemma api_maint_runtime_state_ok
      (w : pyval -> write_outcome) (req : request) (s : server) :
  runtime_state_ok (runtime_state s) ->
  runtime_state_ok (runtime_state (snd (api_maint w req s))).
Proof.
  intros [b0 Hrs]. unfold api_maint. cbv zeta.
  destruct (load_config (config_file s)) as [c|x]; simpl; [|now exists b0].
  destruct (maint_new_state (maint_body req) _) as [b|x]; simpl; [|now exists b0].
  assert (runtime_state_ok
            (dict_setitem (runtime_state s) (PStr "maintenance") (PBool b)))
    by (rewrite Hrs; now exists b).
  destruct (maint_update_buttons b c) as [c1|x]; simpl; trivial.
  destruct (maint_update_system b c1) as [c2|x]; simpl; trivial.
  destruct (w c2); simpl; trivial.
Qed.

Lemma startup_runtime_state_ok (w : pyval -> write_outcome) (s : server) :
  runtime_state_ok (runtime_state s) ->
  runtime_state_ok (runtime_state (snd (startup w s))).
Proof.
  intros [b0 Hrs]. unfold startup, save_config. cbv zeta.
  destruct (config_file s) as [|x|v];
    [destruct (w sample_config) as [|x msg after]|..];
    cbv iota beta;
    repeat match goal with
      | |- context [match load_config ?f with _ => _ end] =>
          destruct (load_config f); cbv iota beta
      | |- context [match py_get ?a ?b ?c with _ => _ end] =>
          destruct (py_get a b c); cbv iota beta
      end;
    simpl; try (now exists b0); rewrite Hrs; now eexists.
Qed.

(** X16: [runtime_state] never holds anything but the maintenance flag, as
    a boolean.  This is so when the module is loaded, after the start-up
    block, and after any series of POST /maint requests, whatever their
    bodies, whatever is in the file and whether or not the writes succeed.
    So the key "cache_cleared", which [render_button_value] reads, is never
    there. *)
Theorem runtime_state_is_the_flag
        (f : file_state) (w0 : pyval -> write_outcome)
        (reqs : list ((pyval -> write_outcome) * request)) :
  let s := serve_maint reqs (snd (startup w0 (fresh_process f))) in
  (exists b, runtime_state s = [(PStr "maintenance", PBool b)])
  /\ dict_get (runtime_state s) "cache_cleared" PNone = PNone
  /\ exists b, maintenance_flag s = PBool b.
Proof.
  cbv zeta.
  assert (H0 : runtime_state_ok
                 (runtime_state (snd (startup w0 (fresh_process f))))).
  { apply startup_runtime_state_ok. now exists false. }
  revert H0. generalize (snd (startup w0 (fresh_process f))) as s.
  induction reqs as [|[w req] r IH]; intros s Hs; simpl.
  - destruct Hs as [b Hb]. rewrite Hb. repeat split; eauto.
    unfold maintenance_flag. rewrite Hb. now exists b.
  - apply IH. now apply api_maint_runtime_state_ok.
Qed.

(** The loop over the buttons goes through exactly when every button is a
    mapping, and then it is a map. *)
Lemma maint_buttons_spec (b : bool) (l : list pyval) :
  (forallb is_mapping l = true ->
   maint_buttons b l = Ok (map (with_toggle_state b) l))
  /\ (forallb is_mapping l = false -> maint_buttons b l = Err AttributeError).
Proof.
  induction l as [|x r [IHt IHf]]; simpl; [split; [reflexivity | discriminate]|].
  destruct x as [| | | | |d]; simpl; try (split; [discriminate | reflexivity]).
  destruct (py_eq_str (dict_get d "endpoint" PNone) "/maint"); simpl.
  - split; intros H; [now rewrite (IHt H) | now rewrite (IHf H)].
  - split; intros H; [now rewrite (IHt H) | now rewrite (IHf H)].
Qed.

Lemma maint_update_system_dict (b : bool) (c1 c2 : pyval) :
  maint_update_system b c1 = Ok c2 ->
  exists d1 d2 sys,
    c1 = PDict d1 /\ c2 = PDict d2
    /\ dict_getitem d2 (PStr "system") = Some (PDict sys)
    /\ dict_getitem sys (PStr "maintenance") = Some (PBool b)
    /\ (forall sys0 k, dict_getitem d1 (PStr "system") = Some (PDict sys0) ->
                       k <> "maintenance" ->
                       dict_getitem sys (PStr k) = dict_getitem sys0 (PStr k))
    /\ (forall k, k <> "system" ->
                  dict_getitem d2 (PStr k) = dict_getitem d1 (PStr k)).
Proof.
  unfold maint_update_system. intros H.
  destruct c1 as [| | | t | l0 | d1]; simpl in H; try discriminate.
  - destruct (str_contains "system" t); discriminate.
  - destruct (existsb _ l0); discriminate.
  - unfold dict_contains in H.
    destruct (dict_getitem d1 (PStr "system")) as [v|] eqn:Es; simpl in H.
    + rewrite Es in H. destruct v as [| | | | |sys0]; simpl in H; try discriminate.
      injection H as <-.
      exists d1, (dict_setitem d1 (PStr "system")
                    (PDict (dict_setitem sys0 (PStr "maintenance") (PBool b)))),
        (dict_setitem sys0 (PStr "maintenance") (PBool b)).
      repeat split.
      * apply dict_get_set_same.
      * apply dict_get_set_same.
      * intros sys1 k Hs Hk. rewrite Es in Hs. injection Hs as <-.
        apply dict_get_set_other. congruence.
      * intros k Hk. apply dict_get_set_other. congruence.
    + rewrite dict_get_set_same in H. simpl in H. injection H as <-.
      eexists d1, _, _. repeat split.
      * apply dict_get_set_same.
      * reflexivity.
      * intros sys1 k Hs. rewrite Es in Hs. discriminate.
      * intros k Hk. rewrite !dict_get_set_other by congruence. reflexivity.
Qed.

(** X18: the flag survives a restart.  After a POST /maint that reported
    plain success, a new process started on the file it left runs its
    start-up block without error and ends up with the same flag. *)
Theorem maintenance_survives_restart
        (w w' : pyval -> write_outcome) (req : request) (s : server) (b : bool) :
  fst (api_maint w req s) = Ok (maint_ok b) ->
  startup w' (fresh_process (config_file (snd (api_maint w req s))))
  = (Ok tt,
     {| runtime_state := [(PStr "maintenance", PBool b)];
        config_file := config_file (snd (api_maint w req s)) |}).
Proof.
  intros H.
  assert (Hfile : exists d2 sys,
             config_file (snd (api_maint w req s)) = Parsed (PDict d2)
             /\ dict_getitem d2 (PStr "system") = Some (PDict sys)
             /\ dict_getitem sys (PStr "maintenance") = Some (PBool b)).
  { revert H. unfold api_maint. cbv zeta.
    destruct (load_config (config_file s)) as [config|x]; [|discriminate].
    destruct (maint_new_state (maint_body req) _) as [b'|x]; [|discriminate].
    destruct (maint_update_buttons b' config) as [c1|x]; [|discriminate].
    destruct (maint_update_system b' c1) as [c2|x] eqn:E2; [|discriminate].
    destruct (w c2) as [|x msg after]; simpl; [|discriminate].
    intros H. injection H as <-.
    destruct (maint_update_system_dict _ _ _ E2)
      as (d1 & d2 & sys & _ & -> & Hsys & Hm & _).
    now exists d2, sys. }
  destruct Hfile as (d2 & sys & Hfile & Hsys & Hm).
  rewrite Hfile.
  assert (Hb : py_bool (PDict d2) = true).
  { destruct d2; [discriminate Hsys | reflexivity]. }
  unfold startup, fresh_process. cbv zeta. cbn [config_file runtime_state].
  unfold load_config. rewrite Hb. cbv iota.
  unfold py_get, dict_get. rewrite Hsys. cbv iota. rewrite Hm. reflexivity.
Qed.

Lemma maintenance_survives_restart_witness :
  let req := {| is_json := true; get_json := Ok (PDict [(PStr "set", PInt 1)]) |} in
  let s' := snd (api_maint (fun _ => Written) req (fresh_process Missing)) in
  startup (fun _ => Written) (fresh_process (config_file s'))
  = (Ok tt, {| runtime_state := [(PStr "maintenance", PBool true)];
               config_file := config_file s' |}).
Proof.
  intros req s'.
  apply (maintenance_survives_restart (fun _ => Written) (fun _ => Written)
           req (fresh_process Missing) true).
  reflexivity.
Defined.

(** X19: the flag is changed before the configuration is touched.  When
    the loaded configuration has a "buttons" entry that cannot be iterated
    (null, a number, a boolean), or has no such entry and a "system" entry
    that is not a mapping, the handler raises TypeError with the new flag
    already in [runtime_state] and the file as it was. *)
Theorem maint_fails_after_flag_change
        (w : pyval -> write_outcome) (req : request) (s : server)
        (d : pydict) (b : bool) :
  load_config (config_file s) = Ok (PDict d) ->
  maint_new_state (maint_body req) (maintenance_flag s) = Ok b ->
  (exists v, dict_getitem d (PStr "buttons") = Some v
             /\ py_iter v = Err TypeError)
  \/ (dict_getitem d (PStr "buttons") = None
      /\ exists v, dict_getitem d (PStr "system") = Some v
                   /\ is_mapping v = false) ->
  api_maint w req s = (Err TypeError, set_maintenance s b)
  /\ maintenance_flag (set_maintenance s b) = PBool b
  /\ config_file (set_maintenance s b) = config_file s.
Proof.
  intros Hload Hnew Hbad. split; [|split; [|reflexivity]].
  - unfold api_maint, maintenance_flag in *. rewrite Hload. cbv zeta.
    rewrite Hnew.
    unfold maint_update_buttons, maint_update_system. simpl.
    unfold dict_contains.
    destruct Hbad as [(v & Hb & Hv) | (Hb & v & Hs & Hv)]; rewrite Hb.
    + destruct v; simpl in *; try discriminate; reflexivity.
    + simpl. unfold dict_contains. rewrite Hs. simpl. rewrite Hs.
      destruct v; simpl in *; try discriminate; reflexivity.
  - unfold maintenance_flag, set_maintenance, dict_get. simpl.
    now rewrite dict_get_set_same.
Qed.

Lemma maint_fails_after_flag_change_witness :
  let s := fresh_process (Parsed (PDict [(PStr "buttons", PNone)])) in
  api_maint (fun _ => Written) {| is_json := false; get_json := Ok PNone |} s
  = (Err TypeError,
     {| runtime_state := [(PStr "maintenance", PBool true)];
        config_file := config_file s |}).
Proof.
  intros s.
  destruct (maint_fails_after_flag_change (fun _ => Written)
              {| is_json := false; get_json := Ok PNone |} s
              [(PStr "buttons", PNone)] true eq_refl eq_refl)
    as (H & _).
  - left. exists PNone. split; reflexivity.
  - exact H.
Defined.



(** X21: POST /maint on a well-formed configuration.  When the file loads
    to a mapping whose "buttons" entry, if any, is a list of mappings and
    whose "system" entry, if any, is a mapping, every request whose body is
    absent, unparseable or a JSON object gets a response, never an
    exception. *)
Theorem maint_answers_on_well_formed_config
        (w : pyval -> write_outcome) (req : request) (s : server) (d : pydict) :
  load_config (config_file s) = Ok (PDict d) ->
  match dict_getitem d (PStr "buttons") with
  | None => True
  | Some v => exists l, v = PList l /\ forallb is_mapping l = true
  end ->
  match dict_getitem d (PStr "system") with
  | None => True
  | Some v => is_mapping v = true
  end ->
  is_mapping (maint_body req) = true ->
  exists resp, fst (api_maint w req s) = Ok resp /\ status resp = 200%Z.
Proof.
  intros Hload Hbtn Hsys Hbody.
  unfold api_maint. rewrite Hload. cbv zeta.
  destruct (maint_body req) as [| | | | |bd]; try discriminate.
  unfold maint_new_state. simpl py_contains. unfold dict_contains.
  simpl py_getitem.
  set (new_state := match dict_getitem bd (PStr "set") with
                    | Some v => py_bool v
                    | None => negb (py_bool (dict_get (runtime_state s)
                                                      "maintenance" (PBool false)))
                    end).
  assert (Hnew : match (match dict_getitem bd (PStr "set") with
                        | Some _ => true | None => false end) with
                 | true =>
                     match (match dict_getitem bd (PStr "set") with
                            | Some v => Ok v | None => Err KeyError end) with
                     | Ok v => Ok (py_bool v)
                     | Err x => Err x
                     end
                 | false =>
                     Ok (negb (py_bool (dict_get (runtime_state s)
                                                 "maintenance" (PBool false))))
                 end = Ok new_state).
  { subst new_state. now destruct (dict_getitem bd (PStr "set")). }
  rewrite Hnew.
  assert (Hb : exists d1,
             maint_update_buttons new_state (PDict d) = Ok (PDict d1)
             /\ dict_getitem d1 (PStr "system") = dict_getitem d (PStr "system")).
  { unfold maint_update_buttons. simpl. unfold dict_contains.
    destruct (dict_getitem d (PStr "buttons")) as [v|] eqn:Eb.
    - destruct Hbtn as (l & -> & Hl).
      rewrite (proj1 (maint_buttons_spec new_state l) Hl). simpl.
      eexists. split; [reflexivity|].
      apply dict_get_set_other. discriminate.
    - now exists d. }
  destruct Hb as (d1 & -> & Hs1).
  assert (Hs : exists c2, maint_update_system new_state (PDict d1) = Ok c2).
  { unfold maint_update_system. simpl. unfold dict_contains. rewrite Hs1.
    destruct (dict_getitem d (PStr "system")) as [v|] eqn:Es; simpl.
    - rewrite ?Hs1, ?Es. destruct v; try discriminate. simpl. eauto.
    - rewrite dict_get_set_same. simpl. eauto. }
  destruct Hs as (c2 & ->).
  destruct (w c2); simpl; eexists; split; reflexivity.
Qed.

Lemma maint_answers_on_well_formed_config_witness :
  exists resp,
    fst (api_maint (fun _ => WriteFailed (OSError "disk full") "disk full" Missing)
                   {| is_json := true; get_json := Ok (PDict []) |}
                   (fresh_process
                      (Parsed (PDict [(PStr "buttons",
                                       PList [PDict [(PStr "endpoint", PStr "/maint")]])]))))
    = Ok resp
    /\ status resp = 200%Z.
Proof.
  apply (maint_answers_on_well_formed_config _ _ _
           [(PStr "buttons", PList [PDict [(PStr "endpoint", PStr "/maint")]])]).
  - reflexivity.
  - simpl. eexists. split; reflexivity.
  - exact I.
  - reflexivity.
Defined.

(** ** GET /buttons *)

Lemma lift_run {A} (r : result A) e h :
  lift r e h = match r with
               | Ok a => (Return a, [])
               | Err x => (Raise x, [])
               end.
Proof. now destruct r. Qed.

(** The copy of a button after the two assignments that need no probe. *)
Lemma process_button_run (fmt : string -> pydict -> result string)
      (rs m : pydict) (btn : pyval) e h :
  process_button fmt rs m btn e h =
  match py_dict btn with
  | Err x => (Raise x, [])
  | Ok d =>
      let d1 :=
        if dict_contains d "value"
        then dict_setitem d (PStr "value")
               (render_button_value fmt rs (dict_get d "value" PNone) m)
        else d in
      let d2 :=
        if py_eq_str (dict_get d1 "endpoint" PNone) "/maint"
        then dict_setitem d1 (PStr "toggleState")
               (dict_get rs "maintenance" (dict_get d1 "toggleState" (PBool false)))
        else d1 in
      if py_eq_str (dict_get d2 "endpoint" PNone) "/web-ui"
      then match is_online "192.168.23.1" e h with
           | (Return b, t) =>
               (Return (PDict (dict_setitem d2 (PStr "toggleState") (PBool b))), t)
           | (Raise x, t) => (Raise x, t)
           | (Pending, t) => (Pending, t)
           end
      else (Return (PDict d2), [])
  end.
Proof.
  unfold process_button. rewrite bind_run, lift_run.
  destruct (py_dict btn) as [d|x]; [|reflexivity].
  cbv zeta. simpl app. rewrite app_nil_r.
  set (d2 := if py_eq_str _ "/maint" then _ else _).
  rewrite bind_run.
  destruct (py_eq_str (dict_get d2 "endpoint" PNone) "/web-ui").
  - rewrite bind_run.
    destruct (is_online "192.168.23.1" e h) as [[b|x|] t]; simpl; trivial.
    now rewrite !app_nil_r.
  - reflexivity.
Qed.


(** X22: what GET /buttons does to one button.  In the copy every entry
    other than "value" and "toggleState" is as in the configuration; a
    "value" entry is rendered; the toggle state of a button whose endpoint
    is "/maint" is the flag of [runtime_state] whatever the configuration
    says, that of a button whose endpoint is "/web-ui" is the result of one
    probe of 192.168.23.1, and that of any other button is left alone;
    without a "/web-ui" endpoint there is no external call. *)
Theorem process_button_copy (fmt : string -> pydict -> result string)
        (rs m : pydict) (btn : pyval) (d : pydict) (out : pyval) (flag : bool) e h :
  py_dict btn = Ok d ->
  rs = [(PStr "maintenance", PBool flag)] ->
  fst (process_button fmt rs m btn e h) = Return out ->
  exists d',
    out = PDict d'
    /\ (forall k, k <> "value" -> k <> "toggleState" ->
                  dict_getitem d' (PStr k) = dict_getitem d (PStr k))
    /\ dict_getitem d' (PStr "value")
       = option_map (fun v => render_button_value fmt rs v m)
                    (dict_getitem d (PStr "value"))
    /\ (if py_eq_str (dict_get d "endpoint" PNone) "/web-ui"
        then exists ev,
            snd (process_button fmt rs m btn e h) = [ev]
            /\ probes_target "192.168.23.1" ev = true
            /\ dict_getitem d' (PStr "toggleState")
               = Some (PBool (probe_succeeded ev))
        else
          snd (process_button fmt rs m btn e h) = []
          /\ dict_getitem d' (PStr "toggleState")
             = if py_eq_str (dict_get d "endpoint" PNone) "/maint"
               then Some (PBool flag)
               else dict_getitem d (PStr "toggleState")).
Proof.
  intros Hd Hrs. rewrite process_button_run, Hd. cbv zeta.
  set (d1 := if dict_contains d "value" then _ else d).
  assert (H1 : forall k, k <> "value" ->
                         dict_getitem d1 (PStr k) = dict_getitem d (PStr k)).
  { intros k Hk. subst d1. destruct (dict_contains d "value"); trivial.
    apply dict_get_set_other. congruence. }
  assert (H1v : dict_getitem d1 (PStr "value")
                = option_map (fun v => render_button_value fmt rs v m)
                             (dict_getitem d (PStr "value"))).
  { subst d1. unfold dict_contains, dict_get.
    destruct (dict_getitem d (PStr "value")) eqn:E; simpl; [|exact E].
    apply dict_get_set_same. }
  assert (He1 : dict_get d1 "endpoint" PNone = dict_get d "endpoint" PNone).
  { unfold dict_get. rewrite H1; [reflexivity | discriminate]. }
  rewrite He1.
  set (d2 := if py_eq_str (dict_get d "endpoint" PNone) "/maint" then _ else d1).
  assert (H2 : forall k, k <> "toggleState" ->
                         dict_getitem d2 (PStr k) = dict_getitem d1 (PStr k)).
  { intros k Hk. subst d2.
    destruct (py_eq_str (dict_get d "endpoint" PNone) "/maint"); trivial.
    apply dict_get_set_other. congruence. }
  assert (He2 : dict_get d2 "endpoint" PNone = dict_get d "endpoint" PNone).
  { unfold dict_get. rewrite H2, H1; [reflexivity | discriminate | discriminate]. }
  rewrite He2.
  assert (Ht2 : dict_getitem d2 (PStr "toggleState")
                = if py_eq_str (dict_get d "endpoint" PNone) "/maint"
                  then Some (PBool flag)
                  else dict_getitem d (PStr "toggleState")).
  { subst d2.
    destruct (py_eq_str (dict_get d "endpoint" PNone) "/maint").
    - rewrite dict_get_set_same, Hrs. reflexivity.
    - apply H1. discriminate. }
  destruct (py_eq_str (dict_get d "endpoint" PNone) "/web-ui") eqn:Ew.
  - pose proof (is_online_probed "192.168.23.1" e h) as P.
    destruct (is_online "192.168.23.1" e h) as [[b|x|] t]; simpl in *;
      try discriminate.
    intros H. injection H as <-.
    inversion P as [ev Hp Ht Hb Htr| |]; subst.
    eexists. split; [reflexivity|]. split; [|split].
    + intros k Hv Ht'. rewrite dict_get_set_other, H2, H1; trivial; congruence.
    + rewrite dict_get_set_other, H2, H1v; [reflexivity | discriminate | discriminate].
    + exists ev. repeat split; trivial. apply dict_get_set_same.
  - simpl. intros H. injection H as <-.
    exists d2. split; [reflexivity|]. split; [|split; [|split]]; trivial.
    + intros k Hv Ht'. rewrite H2, H1; trivial.
    + rewrite H2, H1v; [reflexivity | discriminate].
Qed.

Lemma process_button_copy_witness :
  let rs := [(PStr "maintenance", PBool true)] in
  let btn := PDict [(PStr "label", PStr "Maintenance");
                    (PStr "endpoint", PStr "/maint");
                    (PStr "toggleState", PBool false)] in
  exists d',
    process_button (fun t _ => Ok t) rs [] btn (scripted [] []) []
    = (Return (PDict d'), [])
    /\ dict_getitem d' (PStr "toggleState") = Some (PBool true)
    /\ dict_getitem d' (PStr "label") = Some (PStr "Maintenance").
Proof.
  intros rs btn.
  destruct (process_button_copy (fun t _ => Ok t) rs [] btn
              [(PStr "label", PStr "Maintenance");
               (PStr "endpoint", PStr "/maint");
               (PStr "toggleState", PBool false)]
              (PDict [(PStr "label", PStr "Maintenance");
                      (PStr "endpoint", PStr "/maint");
                      (PStr "toggleState", PBool true)])
              true (scripted [] []) [] eq_refl eq_refl eq_refl)
    as (d' & Hout & Hkeep & _ & Hrest).
  simpl in Hrest. destruct Hrest as [_ Htoggle].
  injection Hout as <-.
  eexists. split; [reflexivity|]. split; reflexivity.
Defined.





(** X24: GET /buttons before its loop.  It raises without any external
    call when the file cannot be loaded, when the configuration is not a
    mapping (AttributeError), when [get_system_metrics] raises, and when
    the "buttons" entry cannot be iterated, as a null entry (TypeError);
    and with no "buttons" entry, as with no file at all, it answers the
    empty list. *)
Theorem buttons_before_the_loop
        (fmt : string -> pydict -> result string)
        (get_system_metrics : result pydict) (s : server) e h :
  match load_config (config_file s) with
  | Err x => api_buttons fmt get_system_metrics s e h = (Raise x, [])
  | Ok (PDict d) =>
      match get_system_metrics with
      | Err x => api_buttons fmt get_system_metrics s e h = (Raise x, [])
      | Ok _ =>
          match dict_getitem d (PStr "buttons") with
          | None =>
              api_buttons fmt get_system_metrics s e h
              = (Return (PList [], 200%Z), [])
          | Some (PList _) | Some (PDict _) | Some (PStr _) => True
          | Some _ =>
              api_buttons fmt get_system_metrics s e h = (Raise TypeError, [])
          end
      end
  | Ok _ => api_buttons fmt get_system_metrics s e h = (Raise AttributeError, [])
  end
  /\ api_buttons fmt (Ok []) (fresh_process Missing) e h
     = (Return (PList [], 200%Z), []).
Proof.
  split; [|reflexivity].
  unfold api_buttons. rewrite bind_run, lift_run.
  destruct (load_config (config_file s)) as [c|x]; [|reflexivity].
  cbv iota. rewrite bind_run, lift_run.
  destruct c as [| | | | |d]; simpl py_get; try reflexivity.
  cbv iota. rewrite bind_run, lift_run.
  destruct get_system_metrics as [m|x]; [|reflexivity].
  cbv iota. rewrite bind_run, lift_run. unfold dict_get.
  destruct (dict_getitem d (PStr "buttons")) as [[| | | | |]|]; trivial;
    reflexivity.
Qed.

(** ** POST /maint on the object graph *)

Lemma val_is_str (v : ref_val) (k : string) : val_is v k = true <-> v = VStr k.
Proof.
  destruct v; simpl; split; try congruence.
  - intros H. apply String.eqb_eq in H. now subst.
  - intros H. injection H as ->. apply String.eqb_refl.
Qed.

Lemma odict_get_set_same d (k : string) (v : ref_val) :
  odict_get (odict_set d k v) k = Some v.
Proof.
  induction d as [|[k0 v0] r IH]; simpl.
  - now rewrite String.eqb_refl.
  - destruct (val_is k0 k) eqn:E; simpl; now rewrite E.
Qed.

Lemma odict_get_set_other d (k k' : string) (v : ref_val) :
  k <> k' -> odict_get (odict_set d k v) k' = odict_get d k'.
Proof.
  intros Hne. induction d as [|[k0 v0] r IH]; simpl.
  - apply String.eqb_neq in Hne. now rewrite Hne.
  - destruct (val_is k0 k) eqn:E; simpl.
    + apply val_is_str in E. subst k0. simpl.
      apply String.eqb_neq in Hne. now rewrite Hne.
    + now rewrite IH.
Qed.

Lemma odict_set_twice d (k : string) (v : ref_val) :
  odict_set (odict_set d k v) k v = odict_set d k v.
Proof.
  induction d as [|[k0 v0] r IH]; simpl.
  - now rewrite String.eqb_refl.
  - destruct (val_is k0 k) eqn:E; simpl; rewrite E; [reflexivity|].
    now rewrite IH.
Qed.

Lemma length_store (h : heap) (a : nat) (o : object) :
  List.length (store h a o) = List.length h.
Proof.
  revert a. induction h as [|x r IH]; intros [|a]; simpl; trivial.
  now rewrite IH.
Qed.

Lemma nth_error_store (h : heap) (a a' : nat) (o : object) :
  nth_error (store h a o) a'
  = if (a' =? a)%nat
    then option_map (fun _ => o) (nth_error h a)
    else nth_error h a'.
Proof.
  revert a a'. induction h as [|x r IH]; intros a a'.
  - destruct a, a'; simpl; trivial. now destruct (a' =? a)%nat.
  - destruct a as [|a], a' as [|a']; simpl; trivial.
Qed.

Lemma endpoint_is_toggled d (b : bool) (s : string) :
  endpoint_is (odict_set d "toggleState" (VBool b)) s = endpoint_is d s.
Proof.
  unfold endpoint_is. rewrite odict_get_set_other; [reflexivity | discriminate].
Qed.

(** The loop over the buttons, object by object: it goes through only when
    every button is a mapping, and then each mapping that is a "/maint"
    button has got the toggle state, once, however often it occurs. *)
Lemma maint_buttons_graph_objects (b : bool) (btns : list ref_val) :
  forall h h',
    maint_buttons_graph b btns h = Ok h' ->
    List.length h' = List.length h
    /\ forall a, nth_error h' a
                 = option_map (after_toggle b btns a) (nth_error h a).
Proof.
  induction btns as [|btn r IH]; intros h h' H; simpl in H.
  - injection H as <-. split; [reflexivity|]. intros a.
    destruct (nth_error h a) as [[l|d]|]; reflexivity.
  - unfold g_get, deref in H.
    destruct btn as [| | | |a0]; try discriminate.
    destruct (nth_error h a0) as [[l0|d0]|] eqn:E0; try discriminate.
    assert (Hep : val_is (match odict_get d0 "endpoint" with
                          | Some v => v | None => VNone end) "/maint"
                  = endpoint_is d0 "/maint").
    { unfold endpoint_is. now destruct (odict_get d0 "endpoint"). }
    rewrite Hep in H.
    destruct (endpoint_is d0 "/maint") eqn:Em.
    + unfold g_setitem in H. rewrite E0 in H.
      destruct (IH _ _ H) as [Hlen Hobj].
      rewrite length_store in Hlen. split; [exact Hlen|].
      intros a. rewrite Hobj, nth_error_store.
      destruct (Nat.eqb_spec a a0) as [->|Hne].
      * rewrite E0. simpl. rewrite Nat.eqb_refl, endpoint_is_toggled, Em.
        simpl. destruct (existsb (refers_to a0) r); simpl; [|reflexivity].
        now rewrite odict_set_twice.
      * destruct (nth_error h a) as [[l|d]|]; simpl; trivial.
        apply Nat.eqb_neq in Hne. rewrite Nat.eqb_sym in Hne.
        now rewrite Hne.
    + destruct (IH _ _ H) as [Hlen Hobj]. split; [exact Hlen|].
      intros a. rewrite Hobj.
      destruct (nth_error h a) as [[l|d]|] eqn:Ea; simpl; trivial.
      destruct (Nat.eqb_spec a0 a) as [->|Hne]; simpl; trivial.
      rewrite E0 in Ea. injection Ea as <-. rewrite Em.
      now rewrite !andb_false_r.
Qed.

Lemma maint_update_buttons_graph_objects (b : bool) (config : ref_val)
      (h h1 : heap) :
  maint_update_buttons_graph b config h = Ok h1 ->
  List.length h1 = List.length h
  /\ forall a, nth_error h1 a
               = option_map (after_toggle b (graph_buttons h config) a)
                            (nth_error h a).
Proof.
  unfold maint_update_buttons_graph, graph_buttons.
  destruct (g_contains "buttons" h config) as [[]|x]; try discriminate.
  - destruct (g_getitem h config "buttons") as [v|x]; [|discriminate].
    destruct (g_iter h v) as [items|x]; [|discriminate].
    apply maint_buttons_graph_objects.
  - intros H. injection H as <-. split; [reflexivity|]. intros a.
    destruct (nth_error h a) as [[l|d]|]; reflexivity.
Qed.

Lemma existsb_refers_to (a : nat) (l : list ref_val) :
  In (VRef a) l -> existsb (refers_to a) l = true.
Proof.
  intros H. apply existsb_exists. exists (VRef a). split; [exact H|].
  simpl. apply Nat.eqb_refl.
Qed.

(** The two assignments to "system", object by object.  [a_sys] is the
    address of the system mapping: the one the configuration refers to, or
    the next free address when it has none. *)
Lemma maint_update_system_graph_objects (b : bool) (config : ref_val)
      (h1 h2 : heap) :
  maint_update_system_graph b config h1 = Ok h2 ->
  exists a_cfg cfg1 a_sys,
    config = VRef a_cfg
    /\ nth_error h1 a_cfg = Some (ODict cfg1)
    /\ match odict_get cfg1 "system" with
       | Some v =>
           v = VRef a_sys /\ (a_sys < List.length h1)%nat
           /\ List.length h2 = List.length h1
           /\ exists sys1, nth_error h1 a_sys = Some (ODict sys1)
       | None =>
           a_sys = List.length h1
           /\ List.length h2 = S (List.length h1)
           /\ nth_error h2 a_sys = Some (ODict [(VStr "maintenance", VBool b)])
       end
    /\ forall a o,
        nth_error h1 a = Some o ->
        nth_error h2 a
        = Some (match o with
                | OList l => OList l
                | ODict d1 =>
                    let d2 :=
                      if (a =? a_cfg)%nat && (a_sys =? List.length h1)%nat
                      then odict_set d1 "system" (VRef a_sys) else d1 in
                    if (a =? a_sys)%nat
                    then ODict (odict_set d2 "maintenance" (VBool b))
                    else ODict d2
                end).
Proof.
  unfold maint_update_system_graph. intros H.
  destruct config as [| | | t |a_cfg]; simpl in H; try discriminate.
  { unfold g_setitem, g_getitem in H. simpl in H.
    destruct (str_contains "system" t); discriminate. }
  destruct (nth_error h1 a_cfg) as [[l|cfg1]|] eqn:Ecfg; try discriminate.
  { unfold g_setitem, g_getitem in H. simpl in H.
    assert (Hlt : (a_cfg < List.length h1)%nat)
      by (apply nth_error_Some; congruence).
    rewrite nth_error_app1, Ecfg in H by exact Hlt.
    destruct (existsb _ l); [rewrite Ecfg in H|]; discriminate. }
  assert (Hlt : (a_cfg < List.length h1)%nat)
    by (apply nth_error_Some; congruence).
  exists a_cfg, cfg1.
  destruct (odict_get cfg1 "system") as [v|] eqn:Es.
  - (* the configuration has a system entry *)
    unfold g_getitem in H. simpl in H. rewrite Ecfg, Es in H.
    unfold g_setitem in H.
    destruct v as [| | | |a_sys]; try discriminate.
    destruct (nth_error h1 a_sys) as [[l|sys1]|] eqn:Esys; try discriminate.
    injection H as <-.
    assert (Hs : (a_sys < List.length h1)%nat)
      by (apply nth_error_Some; congruence).
    exists a_sys. repeat split; trivial.
    + apply length_store.
    + now exists sys1.
    + intros a o Ha. rewrite nth_error_store.
      assert (Hn : (a_sys =? List.length h1)%nat = false)
        by (apply Nat.eqb_neq; lia).
      rewrite Hn, andb_false_r.
      destruct (Nat.eqb_spec a a_sys) as [->|Hne].
      * rewrite Esys in Ha. injection Ha as <-. now rewrite Esys.
      * rewrite Ha. now destruct o.
  - (* it has none: a new mapping is made *)
    unfold g_setitem in H.
    rewrite nth_error_app1, Ecfg in H by exact Hlt.
    unfold g_getitem in H. simpl in H.
    rewrite nth_error_store, Nat.eqb_refl in H.
    rewrite nth_error_app1, Ecfg in H by exact Hlt. simpl in H.
    rewrite odict_get_set_same in H.
    rewrite nth_error_store in H.
    assert (Hn : (List.length h1 =? a_cfg)%nat = false)
      by (apply Nat.eqb_neq; lia).
    rewrite Hn in H.
    rewrite nth_error_app2, Nat.sub_diag in H by lia. simpl in H.
    injection H as <-.
    exists (List.length h1). repeat split; trivial.
    + now rewrite !length_store, length_app, Nat.add_comm.
    + rewrite nth_error_store, Nat.eqb_refl, nth_error_store, Hn.
      now rewrite nth_error_app2, Nat.sub_diag by lia.
    + intros a o Ha.
      assert (Ha' : (a < List.length h1)%nat)
        by (apply nth_error_Some; congruence).
      rewrite nth_error_store.
      assert (Hna : (a =? List.length h1)%nat = false)
        by (apply Nat.eqb_neq; lia).
      rewrite Hna, nth_error_store, Nat.eqb_refl, andb_true_r.
      rewrite (nth_error_app1 _ _ Hlt), Ecfg. simpl.
      destruct (Nat.eqb_spec a a_cfg) as [->|Hne].
      * rewrite Ecfg in Ha. now injection Ha as <-.
      * rewrite (nth_error_app1 _ _ Ha'), Ha. now destruct o.
Qed.

(** X17: what POST /maint writes, object by object.  When the handler
    reports plain success, the file holds the loaded graph, same root, with
    its objects changed in place in exactly this way ([after_maint]): every
    mapping that is an item of [config["buttons"]] with endpoint "/maint"
    has the new flag as its toggle state; the configuration has a "system"
    entry, a new empty mapping if it had none; the system mapping has the
    new flag as "maintenance".  Lists are unchanged, no other entry of any
    mapping is changed, and a mapping that is none of these is unchanged
    altogether.  An object used in several places is changed once, and the
    change shows wherever it is used. *)
Theorem maint_persists (w : graph -> graph_write) (req : request)
        (rs : pydict) (f : graph_file) (g : graph) (b : bool) :
  load_graph f = Ok g ->
  fst (api_maint_graph w req rs f) = Ok (maint_ok b) ->
  exists a_cfg a_sys cfg_d h',
    root g = VRef a_cfg
    /\ nth_error (objects g) a_cfg = Some (ODict cfg_d)
    /\ snd (api_maint_graph w req rs f)
       = (dict_setitem rs (PStr "maintenance") (PBool b),
          GParsed {| root := root g; objects := h' |})
    /\ (forall a o,
          nth_error (objects g) a = Some o ->
          nth_error h' a = Some (after_maint b (objects g) a_cfg a_sys a o))
    /\ match odict_get cfg_d "system" with
       | Some v =>
           v = VRef a_sys /\ List.length h' = List.length (objects g)
       | None =>
           a_sys = List.length (objects g)
           /\ List.length h' = S (List.length (objects g))
           /\ nth_error h' a_sys = Some (ODict [(VStr "maintenance", VBool b)])
       end
    /\ (exists cfg' sys',
          nth_error h' a_cfg = Some (ODict cfg')
          /\ odict_get cfg' "system" = Some (VRef a_sys)
          /\ nth_error h' a_sys = Some (ODict sys')
          /\ odict_get sys' "maintenance" = Some (VBool b))
    /\ (forall a d,
          In (VRef a) (graph_buttons (objects g) (root g)) ->
          nth_error (objects g) a = Some (ODict d) ->
          endpoint_is d "/maint" = true ->
          exists d', nth_error h' a = Some (ODict d')
                     /\ odict_get d' "toggleState" = Some (VBool b))
    /\ (forall a l,
          nth_error (objects g) a = Some (OList l) ->
          nth_error h' a = Some (OList l))
    /\ (forall a d k,
          nth_error (objects g) a = Some (ODict d) ->
          k <> "toggleState" -> k <> "maintenance" -> k <> "system" ->
          exists d', nth_error h' a = Some (ODict d')
                     /\ odict_get d' k = odict_get d k)
    /\ (forall a d,
          nth_error (objects g) a = Some (ODict d) ->
          a <> a_sys -> a <> a_cfg ->
          existsb (refers_to a) (graph_buttons (objects g) (root g))
          && endpoint_is d "/maint" = false ->
          nth_error h' a = Some (ODict d)).
Proof.
  intros Hload. unfold api_maint_graph. rewrite Hload. cbv zeta.
  destruct (maint_new_state (maint_body req) _) as [b'|x]; [|discriminate].
  destruct (maint_update_buttons_graph b' (root g) (objects g)) as [h1|x] eqn:E1;
    [|discriminate].
  destruct (maint_update_system_graph b' (root g) h1) as [h2|x] eqn:E2;
    [|discriminate].
  destruct (w _) as [|x msg after]; simpl; [|discriminate].
  intros H. injection H as <-.
  destruct (maint_update_buttons_graph_objects _ _ _ _ E1) as [Hlen1 Hobj1].
  destruct (maint_update_system_graph_objects _ _ _ _ E2)
    as (a_cfg & cfg1 & a_sys & Hroot & Hcfg1 & Hsys & Hobj2).
  set (h := objects g) in *. set (btns := graph_buttons h (root g)) in *.
  (* the objects of the written graph *)
  assert (Hobj : forall a o,
             nth_error h a = Some o ->
             nth_error h2 a = Some (after_maint b' h a_cfg a_sys a o)).
  { intros a o Ha.
    assert (Ha1 : nth_error h1 a = Some (after_toggle b' btns a o))
      by now rewrite Hobj1, Ha.
    rewrite (Hobj2 _ _ Ha1). unfold after_maint.
    rewrite <- Hroot. fold btns. now rewrite Hlen1. }
  (* the configuration before the loop *)
  assert (Hcfg : exists cfg_d,
             nth_error h a_cfg = Some (ODict cfg_d)
             /\ odict_get cfg1 "system" = odict_get cfg_d "system").
  { specialize (Hobj1 a_cfg). rewrite Hcfg1 in Hobj1.
    destruct (nth_error h a_cfg) as [[l|d]|]; simpl in Hobj1; try discriminate.
    exists d. split; [reflexivity|].
    destruct (existsb _ btns && endpoint_is d "/maint");
      injection Hobj1 as ->; trivial.
    apply odict_get_set_other. discriminate. }
  destruct Hcfg as (cfg_d & Hcfgd & Hsame). rewrite Hsame in Hsys.
  exists a_cfg, a_sys, cfg_d, h2.
  assert (Hkeep : forall a d k,
             nth_error h a = Some (ODict d) ->
             k <> "maintenance" -> k <> "system" ->
             exists d', nth_error h2 a = Some (ODict d')
                        /\ odict_get d' k
                           = match after_toggle b' btns a (ODict d) with
                             | ODict d1 => odict_get d1 k
                             | OList _ => None
                             end).
  { intros a d k Ha Hm Hs. rewrite (Hobj _ _ Ha). unfold after_maint.
    rewrite <- Hroot. fold btns.
    destruct (after_toggle b' btns a (ODict d)) as [l|d1] eqn:Et.
    { simpl in Et. destruct (existsb _ btns && _); discriminate. }
    cbv zeta.
    set (d2 := if (a =? a_cfg)%nat && (a_sys =? List.length h)%nat
               then odict_set d1 "system" (VRef a_sys) else d1).
    assert (H2 : odict_get d2 k = odict_get d1 k).
    { subst d2. destruct (_ && _); trivial.
      apply odict_get_set_other. congruence. }
    destruct (a =? a_sys)%nat; eexists; (split; [reflexivity|]); trivial.
    rewrite odict_get_set_other; [exact H2 | congruence]. }
  split; [exact Hroot|]. split; [exact Hcfgd|]. split; [reflexivity|].
  split; [exact Hobj|].
  split.
  { destruct (odict_get cfg_d "system").
    - destruct Hsys as (-> & _ & Hl & _). split; [reflexivity | congruence].
    - destruct Hsys as (-> & Hl & Hn). repeat split; congruence. }
  split.
  { (* the system mapping *)
    rewrite (Hobj _ _ Hcfgd). unfold after_maint.
    rewrite <- Hroot. fold btns.
    destruct (after_toggle b' btns a_cfg (ODict cfg_d)) as [l|d1] eqn:Et.
    { simpl in Et. destruct (existsb _ btns && _); discriminate. }
    assert (Hd1 : odict_get d1 "system" = odict_get cfg_d "system").
    { simpl in Et. destruct (existsb _ btns && _); injection Et as <-; trivial.
      apply odict_get_set_other. discriminate. }
    cbv zeta. rewrite Nat.eqb_refl. simpl andb.
    destruct (odict_get cfg_d "system") as [v|] eqn:Es.
    - destruct Hsys as (-> & Hlt & Hl & sys1 & Hsys1).
      assert (Hn : (a_sys =? List.length h)%nat = false)
        by (apply Nat.eqb_neq; lia).
      rewrite Hn.
      assert (Hsd : exists sys', nth_error h2 a_sys = Some (ODict sys')
                                 /\ odict_get sys' "maintenance" = Some (VBool b')).
      { specialize (Hobj2 a_sys (ODict sys1) Hsys1).
        rewrite Nat.eqb_refl in Hobj2. cbv zeta in Hobj2.
        eexists. split; [exact Hobj2|]. apply odict_get_set_same. }
      destruct Hsd as (sys' & Hs2 & Hm2).
      destruct (Nat.eqb_spec a_cfg a_sys) as [Heq|Hne].
      + eexists _, sys'. rewrite <- Heq in *. repeat split; trivial.
        rewrite odict_get_set_other; [exact Hd1 | discriminate].
      + eexists _, sys'. repeat split; trivial.
    - destruct Hsys as (-> & Hl & Hn).
      rewrite Hlen1 in Hn |- *. rewrite Nat.eqb_refl.
      assert (Hne : (a_cfg =? List.length h)%nat = false).
      { apply Nat.eqb_neq. assert (a_cfg < List.length h)%nat; [|lia].
        apply nth_error_Some. congruence. }
      rewrite Hne. eexists _, _.
      split; [reflexivity|]. split; [apply odict_get_set_same|].
      split; [exact Hn | reflexivity]. }
  split.
  { (* the buttons *)
    intros a d Hin Ha Hend.
    destruct (Hkeep a d "toggleState" Ha ltac:(discriminate) ltac:(discriminate))
      as (d' & Hd' & Hget).
    exists d'. split; [exact Hd'|]. rewrite Hget. simpl.
    fold btns in Hin. rewrite (existsb_refers_to _ _ Hin), Hend. simpl.
    apply odict_get_set_same. }
  split.
  { intros a l Ha. now rewrite (Hobj _ _ Ha). }
  split.
  { intros a d k Ha Ht Hm Hs.
    destruct (Hkeep a d k Ha Hm Hs) as (d' & Hd' & Hget).
    exists d'. split; [exact Hd'|]. rewrite Hget. simpl.
    destruct (existsb _ btns && _); trivial.
    apply odict_get_set_other. congruence. }
  intros a d Ha Hs Hc Hq. rewrite (Hobj _ _ Ha). unfold after_maint.
  rewrite <- Hroot. fold btns. simpl. rewrite Hq.
  apply Nat.eqb_neq in Hs, Hc. now rewrite Hs, Hc.
Qed.

Lemma maint_persists_witness :
  let shared := ODict [(VStr "a", VInt 1)] in
  let button := ODict [(VStr "endpoint", VStr "/maint")] in
  let config := ODict [(VStr "defaults", VRef 1); (VStr "system", VRef 1);
                       (VStr "buttons", VRef 2)] in
  let g := {| root := VRef 0;
              objects := [config; shared; OList [VRef 3; VRef 3]; button] |} in
  snd (snd (api_maint_graph (fun _ => GWritten)
                            {| is_json := false; get_json := Ok PNone |}
                            initial_runtime_state (GParsed g)))
  = GParsed
      {| root := VRef 0;
         objects := [config;
                     ODict [(VStr "a", VInt 1); (VStr "maintenance", VBool true)];
                     OList [VRef 3; VRef 3];
                     ODict [(VStr "endpoint", VStr "/maint");
                            (VStr "toggleState", VBool true)]] |}.
Proof.
  intros shared button config g.
  destruct (maint_persists (fun _ => GWritten)
              {| is_json := false; get_json := Ok PNone |}
              initial_runtime_state (GParsed g) g true eq_refl eq_refl)
    as (a_cfg & a_sys & cfg_d & h' & _ & _ & Hfile & _).
  rewrite Hfile.
  vm_compute in Hfile. injection Hfile as <-.
  reflexivity.
Defined.

(** On a configuration without shared objects the handler on the graph and
    the handler on the value tree write the same thing. *)
Example graph_and_tree_agree :
  let req := {| is_json := true; get_json := Ok (PDict [(PStr "set", PBool true)]) |} in
  let tree :=
    PDict [(PStr "buttons",
            PList [PDict [(PStr "endpoint", PStr "/maint")];
                   PDict [(PStr "endpoint", PStr "/dummy")]])] in
  let g :=
    {| root := VRef 0;
       objects := [ODict [(VStr "buttons", VRef 1)];
                   OList [VRef 2; VRef 3];
                   ODict [(VStr "endpoint", VStr "/maint")];
                   ODict [(VStr "endpoint", VStr "/dummy")]] |} in
  api_maint (fun _ => Written) req (fresh_process (Parsed tree))
  = (Ok (maint_ok true),
     {| runtime_state := [(PStr "maintenance", PBool true)];
        config_file :=
          Parsed (PDict [(PStr "buttons",
                          PList [PDict [(PStr "endpoint", PStr "/maint");
                                        (PStr "toggleState", PBool true)];
                                 PDict [(PStr "endpoint", PStr "/dummy")]]);
                         (PStr "system",
                          PDict [(PStr "maintenance", PBool true)])]) |})
  /\ api_maint_graph (fun _ => GWritten) req initial_runtime_state (GParsed g)
     = (Ok (maint_ok true),
        ([(PStr "maintenance", PBool true)],
         GParsed
           {| root := VRef 0;
              objects := [ODict [(VStr "buttons", VRef 1); (VStr "system", VRef 4)];
                          OList [VRef 2; VRef 3];
                          ODict [(VStr "endpoint", VStr "/maint");
                                 (VStr "toggleState", VBool true)];
                          ODict [(VStr "endpoint", VStr "/dummy")];
                          ODict [(VStr "maintenance", VBool true)]] |})).
Proof. split; reflexivity. Qed.
